(** * A static file server: [web_server.py]

    The program is a subclass [MyHandler] of the standard library's
    [http.server.SimpleHTTPRequestHandler] with one override,
    [log_message], and a start-up script: change directory, build an
    [HTTPServer], print two lines, serve until interrupted.

    The development embeds the two pieces of [web_server.py] (modules
    [MyHandler] and [Script]) and, because nearly all behaviour is
    inherited, the methods of CPython 3.11's [Lib/http/server.py],
    [Lib/socketserver.py], [Lib/posixpath.py], [Lib/urllib/parse.py] and
    [Lib/html/__init__.py] that a request runs through (modules [Str],
    [posixpath], [urllib], [html], [os], [sys], [time], [http_server] and
    [socketserver]; [Conn] and [Proc] hold the effects of a handler and
    of the process).

    Conventions of the embedding.
    - A Python [str] is a [string] of bytes: its UTF-8 encoding.  All
      operations below act on ASCII characters only, which UTF-8 keeps
      apart from the bytes of other characters.  The handler is embedded
      for the requests [http_server.plain] describes; the properties of
      what a request is answered assume it.
    - The file system is a tree of directories and regular files, without
      symbolic links; a node carries a flag saying whether the process may
      read it.  Paths are absolute.
    - A request is what [parse_request] leaves on the handler for a request
      line of three words with an HTTP/1.x version and headers it can
      read: the request line, the command, the target and the two headers
      [send_head] looks at.  Request lines that [parse_request] refuses
      (answered 400, 414, 431 or 505) and requests of two words (HTTP/0.9)
      are not embedded.
    - The response is the sequence of writes to the connection: status
      line, headers, end of headers, body.  The values of headers that
      come from [email.utils.formatdate], [mimetypes] and the version
      string are kept symbolic.
    - The process is a state (working directory, standard output and
      error, listening socket, calls made so far) run against a world it
      does not change (file system, ports in use) and a finite list of
      events (connections, Ctrl-C); a loop that has used up the events
      is still [Running]. *)

From Stdlib Require Import String Ascii List ZArith Lia Bool DecimalString.
Import ListNotations.
Local Open Scope string_scope.
Local Open Scope Z_scope.

(** ** Python [str] operations *)

Module Str.

Definition nl : string := String (ascii_of_nat 10) "".
Definition dq : string := String (ascii_of_nat 34) "".

(** [s.split(sep)] for a one-character separator. *)
Fixpoint split (sep : ascii) (s : string) : list string :=
  match s with
  | EmptyString => [""]
  | String c s' =>
      if Ascii.eqb c sep then "" :: split sep s'
      else match split sep s' with
           | w :: ws => String c w :: ws
           | [] => [String c ""]
           end
  end.

(** [sep.join(l)]. *)
Definition join (sep : string) (l : list string) : string := String.concat sep l.

(** [s.split(c, 1)[0]]: the part before the first [c]. *)
Fixpoint before (c : ascii) (s : string) : string :=
  match s with
  | EmptyString => ""
  | String a s' => if Ascii.eqb a c then "" else String a (before c s')
  end.

(** The part after the first [c], when there is one. *)
Fixpoint after (c : ascii) (s : string) : option string :=
  match s with
  | EmptyString => None
  | String a s' => if Ascii.eqb a c then Some s' else after c s'
  end.

Definition startswith (s p : string) : bool := String.prefix p s.

Fixpoint endswith (s suf : string) : bool :=
  String.eqb s suf ||
  match s with
  | EmptyString => false
  | String _ s' => endswith s' suf
  end.

(** Whitespace as [str.rstrip()] sees it, below U+0080. *)
Definition isspace (c : ascii) : bool :=
  let n := nat_of_ascii c in
  ((9 <=? n) && (n <=? 13) || (28 <=? n) && (n <=? 32))%nat.

Fixpoint rstrip (s : string) : string :=
  match s with
  | EmptyString => ""
  | String c s' =>
      let r := rstrip s' in
      if String.eqb r "" && isspace c then "" else String c r
  end.

(** [s.replace(c, r)] for a one-character [c]. *)
Fixpoint replace (c : ascii) (r : string) (s : string) : string :=
  match s with
  | EmptyString => ""
  | String a s' => (if Ascii.eqb a c then r else String a "") ++ replace c r s'
  end.

(** [s.lower()] on ASCII letters. *)
Definition lower_char (c : ascii) : ascii :=
  let n := nat_of_ascii c in
  if ((65 <=? n) && (n <=? 90))%nat then ascii_of_nat (n + 32) else c.

Fixpoint lower (s : string) : string :=
  match s with
  | EmptyString => ""
  | String c s' => String (lower_char c) (lower s')
  end.

(** [str(n)] for an integer. *)
Definition of_int (z : Z) : string := NilEmpty.string_of_int (Z.to_int z).

Fixpoint zeros (n : nat) : string :=
  match n with O => "" | S n' => String "0" (zeros n') end.

(** ["%0<w>d" % z]: sign first, then zeros up to the width. *)
Definition zfill (w : nat) (z : Z) : string :=
  let digits := of_int (Z.abs z) in
  if z <? 0
  then "-" ++ zeros (w - 1 - String.length digits) ++ digits
  else zeros (w - String.length digits) ++ digits.

(** ["%<w>s" % s]: spaces on the left up to the width. *)
Fixpoint spaces (n : nat) : string :=
  match n with O => "" | S n' => String " " (spaces n') end.

Definition lpad (w : nat) (s : string) : string :=
  spaces (w - String.length s) ++ s.

(** The arguments of [format % args]. *)
Inductive fmt_arg : Type :=
| ArgStr (s : string)
| ArgInt (z : Z).

Definition arg_str (a : fmt_arg) : string :=
  match a with ArgStr s => s | ArgInt z => of_int z end.

(** [format % args] for a format whose conversions are [%s], [%d] and
    [%%] (see [supported] below), the ones the library's log formats use.
    [None] is the exception [%] raises: the [TypeError] of a wrong number
    or type of arguments, the [ValueError] of a [%] at the end. *)
Fixpoint format (fmt : string) (args : list fmt_arg) : option string :=
  match fmt with
  | EmptyString => match args with [] => Some "" | _ :: _ => None end
  | String c rest =>
      if Ascii.eqb c "%" then
        match rest with
        | EmptyString => None
        | String k rest' =>
            if Ascii.eqb k "s" then
              match args with
              | a :: args' => option_map (append (arg_str a)) (format rest' args')
              | [] => None
              end
            else if Ascii.eqb k "d" then
              match args with
              | ArgInt z :: args' => option_map (append (of_int z)) (format rest' args')
              | _ => None
              end
            else if Ascii.eqb k "%" then option_map (String "%") (format rest' args)
            else None
        end
      else option_map (String c) (format rest args)
  end.

(** [repr(s)] of an ASCII string: single quotes, unless the string has a
    single quote and no double quote; a backslash before backslashes and
    the chosen quote; tab, newline and carriage return as [\t], [\n] and
    [\r], the other control characters as [\x] and two hexadecimal
    digits.  Bytes of characters outside ASCII are left as they are. *)
Fixpoint has_char (c : ascii) (s : string) : bool :=
  match s with
  | EmptyString => false
  | String a s' => Ascii.eqb a c || has_char c s'
  end.

Definition backslash : ascii := ascii_of_nat 92.

Definition hexdigit (n : nat) : ascii :=
  if (n <? 10)%nat then ascii_of_nat (48 + n) else ascii_of_nat (87 + n).

Definition escape_char (q a : ascii) : string :=
  let n := nat_of_ascii a in
  if Ascii.eqb a q || Ascii.eqb a backslash then String backslash (String a "")
  else if (n =? 9)%nat then String backslash "t"
  else if (n =? 10)%nat then String backslash "n"
  else if (n =? 13)%nat then String backslash "r"
  else if ((n <? 32) || (n =? 127))%nat
       then String backslash
              (String "x" (String (hexdigit (n / 16)) (String (hexdigit (n mod 16)) "")))
  else String a "".

Fixpoint escape_for (q : ascii) (s : string) : string :=
  match s with
  | EmptyString => ""
  | String a s' => escape_char q a ++ escape_for q s'
  end.

Definition repr (s : string) : string :=
  let q := if has_char "'" s && negb (has_char (ascii_of_nat 34) s)
           then ascii_of_nat 34 else "'"%char in
  String q (escape_for q s) ++ String q "".

(** A stable sort on a key, as [list.sort(key=...)]. *)
Fixpoint insert_by (key : string -> string) (x : string) (l : list string) : list string :=
  match l with
  | [] => [x]
  | y :: l' =>
      if String.leb (key x) (key y) then x :: y :: l' else y :: insert_by key x l'
  end.

Fixpoint sort_by (key : string -> string) (l : list string) : list string :=
  match l with
  | [] => []
  | x :: l' => insert_by key x (sort_by key l')
  end.

(** [x in s]: [x] occurs in [s]. *)
Definition contains (s x : string) : Prop :=
  exists pre post, s = pre ++ x ++ post.

(** *** Which byte strings are which texts

    The operations above are those of [str] on ASCII characters.  They
    are the operations of Python on every [str] whose UTF-8 encoding the
    [string] is; the predicates below say when a [string] is one. *)

Fixpoint all (p : ascii -> bool) (s : string) : bool :=
  match s with
  | EmptyString => true
  | String c s' => p c && all p s'
  end.

(** [s.isascii()]. *)
Definition isascii (s : string) : bool :=
  all (fun c => (nat_of_ascii c <? 128)%nat) s.

(** A printable ASCII character other than the space. *)
Definition isgraph (c : ascii) : bool :=
  let n := nat_of_ascii c in ((33 <=? n) && (n <=? 126))%nat.

(** Well-formed UTF-8 (the Unicode standard's table 3-7), what
    [bytes.decode('utf-8')] accepts: [need] continuation bytes are still
    to come, the next of them between [lo] and [hi]. *)
Fixpoint utf8_from (need lo hi : nat) (s : string) : bool :=
  match s with
  | EmptyString => Nat.eqb need 0
  | String c s' =>
      let n := nat_of_ascii c in
      match need with
      | O =>
          if (n <? 128)%nat then utf8_from 0 128 191 s'
          else if ((194 <=? n) && (n <=? 223))%nat then utf8_from 1 128 191 s'
          else if (n =? 224)%nat then utf8_from 2 160 191 s'
          else if (n =? 237)%nat then utf8_from 2 128 159 s'
          else if ((225 <=? n) && (n <=? 239))%nat then utf8_from 2 128 191 s'
          else if (n =? 240)%nat then utf8_from 3 144 191 s'
          else if ((241 <=? n) && (n <=? 243))%nat then utf8_from 3 128 191 s'
          else if (n =? 244)%nat then utf8_from 3 128 143 s'
          else false
      | S need' =>
          if ((lo <=? n) && (n <=? hi))%nat then utf8_from need' 128 191 s' else false
      end
  end.

Definition utf8 (s : string) : bool := utf8_from 0 128 191 s.

(** A text a file name can be made of: well-formed UTF-8 without NUL. *)
Definition text (s : string) : bool :=
  utf8 s && negb (has_char (ascii_of_nat 0) s).

(** A format whose conversions are those [format] knows: every [%] is
    followed by [s], [d] or [%], or ends the format. *)
Fixpoint supported (fmt : string) : bool :=
  match fmt with
  | EmptyString => true
  | String c rest =>
      if Ascii.eqb c "%" then
        match rest with
        | EmptyString => true
        | String k rest' =>
            (Ascii.eqb k "s" || Ascii.eqb k "d" || Ascii.eqb k "%") && supported rest'
        end
      else supported rest
  end.

End Str.


(** ** [posixpath] *)

Module posixpath.

Definition has_sep (s : string) : bool :=
  negb (String.eqb (Str.before "/" s) s).

(** [p[:p.rfind('/') + 1]]: up to and including the last separator. *)
Fixpoint head_of (p : string) : string :=
  match p with
  | EmptyString => ""
  | String c p' =>
      if has_sep p' then String c (head_of p')
      else if Ascii.eqb c "/" then "/" else ""
  end.

Fixpoint all_sep (s : string) : bool :=
  match s with
  | EmptyString => true
  | String c s' => Ascii.eqb c "/" && all_sep s'
  end.

Fixpoint rstrip_sep (s : string) : string :=
  match s with
  | EmptyString => ""
  | String c s' =>
      let r := rstrip_sep s' in
      if String.eqb r "" && Ascii.eqb c "/" then "" else String c r
  end.

Definition dirname (p : string) : string :=
  let head := head_of p in
  if negb (String.eqb head "") && negb (all_sep head) then rstrip_sep head else head.

(** [join(a, b)] for one component [b]. *)
Definition join (a b : string) : string :=
  if Str.startswith b "/" then b
  else if String.eqb a "" || Str.endswith a "/" then a ++ b
  else a ++ "/" ++ b.

Definition is_nil {A} (l : list A) : bool :=
  match l with [] => true | _ :: _ => false end.

(** One turn of the loop of [normpath] over the components. *)
Definition norm_step (initial_slashes : nat) (new_comps : list string) (comp : string)
  : list string :=
  if String.eqb comp "" || String.eqb comp "." then new_comps
  else if negb (String.eqb comp "..")
          || (Nat.eqb initial_slashes 0 && is_nil new_comps)
          || (negb (is_nil new_comps) && String.eqb (last new_comps "") "..")
       then new_comps ++ [comp]
       else removelast new_comps.

Fixpoint seps (n : nat) : string :=
  match n with O => "" | S n' => String "/" (seps n') end.

Definition normpath (path : string) : string :=
  if String.eqb path "" then "."
  else
    let initial_slashes :=
      if Str.startswith path "/"
      then if Str.startswith path "//" && negb (Str.startswith path "///")
           then 2%nat else 1%nat
      else 0%nat in
    let comps := fold_left (norm_step initial_slashes) (Str.split "/" path) [] in
    let path := seps initial_slashes ++ Str.join "/" comps in
    if String.eqb path "" then "." else path.

End posixpath.

(** ** [urllib.parse] *)

Module urllib.

Definition hexval (c : ascii) : option nat :=
  let n := nat_of_ascii c in
  if ((48 <=? n) && (n <=? 57))%nat then Some (n - 48)%nat
  else if ((65 <=? n) && (n <=? 70))%nat then Some (n - 55)%nat
  else if ((97 <=? n) && (n <=? 102))%nat then Some (n - 87)%nat
  else None.

(** [unquote] of an ASCII string whose escaped bytes are well-formed
    UTF-8: every [%XY] with two hexadecimal digits becomes the byte [XY];
    anything else stays.  (For other escaped bytes [unquote] gives lone
    surrogates or U+FFFD, depending on [errors]; that is not embedded.) *)
Fixpoint unquote (s : string) : string :=
  match s with
  | EmptyString => ""
  | String c rest =>
      if Ascii.eqb c "%" then
        match rest with
        | String h (String l rest') =>
            match hexval h, hexval l with
            | Some a, Some b => String (ascii_of_nat (16 * a + b)) (unquote rest')
            | _, _ => String c (unquote rest)
            end
        | _ => String c (unquote rest)
        end
      else String c (unquote rest)
  end.

Definition hexdigit (n : nat) : ascii :=
  if (n <? 10)%nat then ascii_of_nat (48 + n) else ascii_of_nat (55 + n).

Definition always_safe (c : ascii) : bool :=
  let n := nat_of_ascii c in
  ((65 <=? n) && (n <=? 90) || (97 <=? n) && (n <=? 122) || (48 <=? n) && (n <=? 57)
   || (n =? 95) || (n =? 46) || (n =? 45) || (n =? 126))%nat.

(** [quote(s)] with the default [safe='/']. *)
Fixpoint quote (s : string) : string :=
  match s with
  | EmptyString => ""
  | String c s' =>
      if always_safe c || Ascii.eqb c "/" then String c (quote s')
      else
        let n := nat_of_ascii c in
        String "%" (String (hexdigit (n / 16)) (String (hexdigit (n mod 16)) (quote s')))
  end.

(** [urlsplit] of a request target in origin form (one leading [/], no
    space or control character): it has no scheme and no network location
    for [urlsplit] to split off, and nothing for it to strip; the path,
    the query and the fragment are what is left. *)
Record SplitResult : Type := {
  path : string;
  query : string;
  fragment : string
}.

Definition urlsplit (url : string) : SplitResult :=
  let fragment := match Str.after "#" url with Some f => f | None => "" end in
  let url := Str.before "#" url in
  let query := match Str.after "?" url with Some q => q | None => "" end in
  {| path := Str.before "?" url; query := query; fragment := fragment |}.

Definition urlunsplit (parts : SplitResult) : string :=
  let url := path parts in
  let url := if String.eqb (query parts) "" then url else url ++ "?" ++ query parts in
  if String.eqb (fragment parts) "" then url else url ++ "#" ++ fragment parts.

End urllib.

(** ** [html] *)

Module html.

(** [escape(s, quote=False)]. *)
Definition escape (s : string) : string :=
  Str.replace ">" "&gt;" (Str.replace "<" "&lt;" (Str.replace "&" "&amp;" s)).

End html.

(** ** [os]: the file system and the calls the program makes on it *)

Module os.

Set Warnings "-register-all".

(** A regular file has a modification time (whole seconds since the
    epoch, a date that [datetime] can hold) and its bytes; a directory
    has named entries, the names as [os.listdir] gives them.  [readable]
    says whether the process may open the file or list the directory;
    every directory of the tree can be searched and entered. *)
Inductive node : Type :=
| File (readable : bool) (mtime : Z) (content : string)
| Dir (readable : bool) (entries : list (string * node)).

Fixpoint lookup (name : string) (entries : list (string * node)) : option node :=
  match entries with
  | [] => None
  | (n, x) :: rest => if String.eqb n name then Some x else lookup name rest
  end.

(** The components of a path: what lies between the separators. *)
Definition components (p : string) : list string :=
  filter (fun c => negb (String.eqb c "")) (Str.split "/" p).

(** Walking down from a directory, with the directories passed on the way
    kept for [..]; the parent of the top directory is itself. *)
Fixpoint walk (up : list node) (cur : node) (comps : list string)
  : option (list node * node) :=
  match comps with
  | [] => Some (up, cur)
  | c :: cs =>
      match cur with
      | File _ _ _ => None
      | Dir _ entries =>
          if String.eqb c "." then walk up cur cs
          else if String.eqb c ".." then
            match up with
            | [] => walk [] cur cs
            | parent :: up' => walk up' parent cs
            end
          else
            match lookup c entries with
            | Some child => walk (cur :: up) child cs
            | None => None
            end
      end
  end.

Definition is_dir (n : node) : bool :=
  match n with Dir _ _ => true | File _ _ _ => false end.

(** What an absolute path names in the tree [top]: repeated separators
    count once, and a path ending in a separator names a directory or
    nothing.  [None] is the [OSError] of a path that names nothing. *)
Definition resolve (top : node) (p : string) : option node :=
  match walk [] top (components p) with
  | Some (_, n) =>
      if String.eqb p "" then None
      else if Str.endswith p "/" && negb (is_dir n) then None
      else Some n
  | None => None
  end.

(** Why a path names nothing: a name is missing ([ENOENT]), or a regular
    file stands where a directory is needed ([ENOTDIR]), whichever comes
    first on the way. *)
Inductive error : Type :=
| ENOENT
| ENOTDIR.

Fixpoint walk_error (up : list node) (cur : node) (comps : list string) : error :=
  match comps with
  | [] => ENOENT
  | c :: cs =>
      match cur with
      | File _ _ _ => ENOTDIR
      | Dir _ entries =>
          if String.eqb c "." then walk_error up cur cs
          else if String.eqb c ".." then
            match up with
            | [] => walk_error [] cur cs
            | parent :: up' => walk_error up' parent cs
            end
          else
            match lookup c entries with
            | Some child => walk_error (cur :: up) child cs
            | None => ENOENT
            end
      end
  end.

Definition errno (top : node) (p : string) : error :=
  match walk [] top (components p) with
  | Some (_, File _ _ _) => if String.eqb p "" then ENOENT else ENOTDIR
  | Some (_, Dir _ _) => ENOENT
  | None => walk_error [] top (components p)
  end.

Module path.

Definition isdir (top : node) (p : string) : bool :=
  match resolve top p with Some (Dir _ _) => true | _ => false end.

Definition isfile (top : node) (p : string) : bool :=
  match resolve top p with Some (File _ _ _) => true | _ => false end.

(** There are no symbolic links in the tree. *)
Definition islink (top : node) (p : string) : bool := false.

End path.

(** [open(p, 'rb')] followed by [os.fstat] and a read to the end, for a
    path that is text: the modification time and the bytes, or [None] for
    [OSError].  (For a path with a NUL or a lone surrogate [open] raises
    [ValueError], which [send_head] does not catch; that is not
    embedded.) *)
Definition open (top : node) (p : string) : option (Z * string) :=
  match resolve top p with
  | Some (File true mtime content) => Some (mtime, content)
  | _ => None
  end.

(** [os.listdir(p)], or [None] for [OSError]. *)
Definition listdir (top : node) (p : string) : option (list string) :=
  match resolve top p with
  | Some (Dir true entries) => Some (map fst entries)
  | _ => None
  end.

(** A name a directory entry can have. *)
Definition simple_name (w : string) : bool :=
  negb (String.eqb w "") && negb (String.eqb w ".") && negb (String.eqb w "..")
  && negb (posixpath.has_sep w).

(** Every entry of every directory has such a name. *)
Fixpoint wf (n : node) : Prop :=
  match n with
  | File _ _ _ => True
  | Dir _ entries =>
      (fix wf_entries (l : list (string * node)) : Prop :=
         match l with
         | [] => True
         | (name, child) :: rest =>
             simple_name name = true /\ wf child /\ wf_entries rest
         end) entries
  end.

End os.

(** ** [sys.stdout] *)

Module sys.

(** A buffered text stream: what [write] has put in the buffer, and what
    has left the process. *)
Record stream : Type := {
  buffered : string;
  flushed : string
}.

Definition write (s : string) (f : stream) : stream :=
  {| buffered := buffered f ++ s; flushed := flushed f |}.

Definition flush (f : stream) : stream :=
  {| buffered := ""; flushed := flushed f ++ buffered f |}.

Definition empty : stream := {| buffered := ""; flushed := "" |}.

End sys.

(** ** [time] *)

Module time.

(** The fields of [time.localtime()] that the log line prints. *)
Record struct_time : Type := {
  tm_year : Z;
  tm_mon : Z;
  tm_mday : Z;
  tm_hour : Z;
  tm_min : Z;
  tm_sec : Z
}.

(** The clock at one moment: [time.time()] in whole seconds and
    [time.localtime()] of it, whose month is between 1 and 12. *)
Record clock : Type := {
  epoch : Z;
  localtime : struct_time
}.

End time.

(** ** The connection and the handler's effects *)

Module Conn.

(** The value of a response header: a text, or the result of one of the
    formatters the development keeps symbolic ([email.utils.formatdate],
    [mimetypes], the server's version string). *)
Inductive header_value : Type :=
| Text (s : string)
| HttpDate (timestamp : Z)
| MimeType (path : string)
| ServerVersion.

(** What the handler writes to the connection. *)
Inductive witem : Type :=
| StatusLine (code : Z) (message : string)
| Header (keyword : string) (value : header_value)
| EndHeaders
| Body (data : string).

(** What a handler changes: the process's standard output and the
    connection it writes to. *)
Record conn : Type := {
  stdout : sys.stream;
  wfile : list witem
}.

(** State and exceptions: [None] is an exception leaving the method. *)
Definition M (A : Type) : Type := conn -> option A * conn.

Definition ret {A} (a : A) : M A := fun c => (Some a, c).

Definition bind {A B} (m : M A) (k : A -> M B) : M B :=
  fun c =>
    match m c with
    | (Some a, c') => k a c'
    | (None, c') => (None, c')
    end.

Definition raise {A} : M A := fun c => (None, c).

Definition lift {A} (o : option A) : M A :=
  match o with Some a => ret a | None => raise end.

Definition emit (w : witem) : M unit :=
  fun c => (Some tt, {| stdout := stdout c; wfile := wfile c ++ [w] |}).

Definition stdout_write (s : string) : M unit :=
  fun c => (Some tt, {| stdout := sys.write s (stdout c); wfile := wfile c |}).

Definition stdout_flush : M unit :=
  fun c => (Some tt, {| stdout := sys.flush (stdout c); wfile := wfile c |}).

(** A connection nothing has been written to yet. *)
Definition fresh (out : sys.stream) : conn := {| stdout := out; wfile := [] |}.

(** The response read back from the writes. *)
Fixpoint status (w : list witem) : option Z :=
  match w with
  | [] => None
  | StatusLine code _ :: _ => Some code
  | _ :: w' => status w'
  end.

Fixpoint body (w : list witem) : string :=
  match w with
  | [] => ""
  | Body data :: w' => data ++ body w'
  | _ :: w' => body w'
  end.

Fixpoint header (keyword : string) (w : list witem) : option header_value :=
  match w with
  | [] => None
  | Header k v :: w' => if String.eqb k keyword then Some v else header keyword w'
  | _ :: w' => header keyword w'
  end.

End Conn.

Declare Scope conn_scope.
Delimit Scope conn_scope with conn.
Notation "x <- m ;; k" := (Conn.bind m (fun x => k))
  (at level 61, m at next level, right associativity) : conn_scope.
Notation "m ;; k" := (Conn.bind m (fun _ => k))
  (at level 61, right associativity) : conn_scope.

(** ** [http.server]: the request handler [MyHandler] inherits *)

Module http_server.
Import Conn.
Local Open Scope conn_scope.

(** What [parse_request] leaves on the handler.  [if_modified_since] is the
    date of that header in seconds since the epoch, when the header is
    there, well-formed and in UTC; [if_none_match] says whether that header
    is there. *)
Record request : Type := {
  requestline : string;
  command : string;
  path : string;
  if_modified_since : option Z;
  if_none_match : bool
}.

(** A request target in origin form: an absolute path, not a network
    path ([parse_request] leaves no [//] in front), of printable ASCII
    characters, a query and a fragment maybe after it. *)
Definition origin_form (target : string) : bool :=
  Str.startswith target "/" && negb (Str.startswith target "//")
  && Str.all Str.isgraph target.

(** The requests the handler below is the library's handler for: the
    command is ASCII, the request line is text, the target is in origin
    form and, with its escapes replaced, is text again.  For other
    requests the library goes ways that are not embedded: it splits a
    scheme and a network location off the target, puts U+FFFD for escaped
    bytes that are not UTF-8, and lets the [ValueError] of a NUL or of a
    lone surrogate in a file name leave the handler. *)
Definition plain (r : request) : bool :=
  Str.isascii (command r) && Str.utf8 (requestline r)
  && origin_form (path r) && Str.text (urllib.unquote (path r)).

(** The handler object: the request and what the handler reads from its
    process, the file system, the directory it serves ([os.getcwd()] when
    the handler is made) and the clock. *)
Record handler : Type := {
  fs : os.node;
  directory : string;
  clock : time.clock;
  req : request
}.

Section BaseHTTPRequestHandler.

(** [log_message] is the method a subclass overrides. *)
Variable log_message : handler -> string -> list Str.fmt_arg -> M unit.

(** The entries of [responses] for the codes this handler sends. *)
Definition responses (code : Z) : option (string * string) :=
  if code =? 200 then Some ("OK", "Request fulfilled, document follows")
  else if code =? 301
       then Some ("Moved Permanently", "Object moved permanently -- see URI list")
  else if code =? 304
       then Some ("Not Modified", "Document has not changed since given time")
  else if code =? 404 then Some ("Not Found", "Nothing matches the given URI")
  else if code =? 501
       then Some ("Not Implemented", "Server does not support this operation")
  else None.

Definition error_message_format (code : Z) (message explain : string) : string :=
  "<!DOCTYPE HTML>" ++ Str.nl ++
  "<html lang=" ++ Str.dq ++ "en" ++ Str.dq ++ ">" ++ Str.nl ++
  "    <head>" ++ Str.nl ++
  "        <meta charset=" ++ Str.dq ++ "utf-8" ++ Str.dq ++ ">" ++ Str.nl ++
  "        <title>Error response</title>" ++ Str.nl ++
  "    </head>" ++ Str.nl ++
  "    <body>" ++ Str.nl ++
  "        <h1>Error response</h1>" ++ Str.nl ++
  "        <p>Error code: " ++ Str.of_int code ++ "</p>" ++ Str.nl ++
  "        <p>Message: " ++ message ++ ".</p>" ++ Str.nl ++
  "        <p>Error code explanation: " ++ Str.of_int code ++ " - " ++ explain
     ++ ".</p>" ++ Str.nl ++
  "    </body>" ++ Str.nl ++
  "</html>" ++ Str.nl.

Definition error_content_type : string := "text/html;charset=utf-8".

Definition log_request (self : handler) (code : Z) : M unit :=
  log_message self (Str.dq ++ "%s" ++ Str.dq ++ " %s %s")
    [Str.ArgStr (requestline (req self)); Str.ArgStr (Str.of_int code); Str.ArgStr "-"].

Definition log_error (self : handler) (format : string) (args : list Str.fmt_arg)
  : M unit :=
  log_message self format args.

Definition send_response_only (self : handler) (code : Z) (message : option string)
  : M unit :=
  let message :=
    match message with
    | Some m => m
    | None => match responses code with Some (phrase, _) => phrase | None => "" end
    end in
  emit (StatusLine code message).

Definition send_header (self : handler) (keyword : string) (value : header_value)
  : M unit :=
  emit (Header keyword value).

Definition end_headers (self : handler) : M unit := emit EndHeaders.

Definition send_response (self : handler) (code : Z) (message : option string)
  : M unit :=
  log_request self code ;;
  send_response_only self code message ;;
  send_header self "Server" ServerVersion ;;
  send_header self "Date" (HttpDate (time.epoch (clock self))).

Definition send_error (self : handler) (code : Z) (message : option string) : M unit :=
  let '(shortmsg, longmsg) :=
    match responses code with Some p => p | None => ("???", "???") end in
  let message := match message with Some m => m | None => shortmsg end in
  let explain := longmsg in
  log_error self "code %d, message %s" [Str.ArgInt code; Str.ArgStr message] ;;
  send_response self code (Some message) ;;
  send_header self "Connection" (Text "close") ;;
  let body :=
    if (200 <=? code) && negb ((code =? 204) || (code =? 205) || (code =? 304))
    then Some (error_message_format code (html.escape message) (html.escape explain))
    else None in
  match body with
  | Some b =>
      send_header self "Content-Type" (Text error_content_type) ;;
      send_header self "Content-Length" (Text (Str.of_int (Z.of_nat (String.length b))))
  | None => ret tt
  end ;;
  end_headers self ;;
  match body with
  | Some b =>
      if negb (String.eqb (command (req self)) "HEAD") && negb (String.eqb b "")
      then emit (Body b) else ret tt
  | None => ret tt
  end.

Definition monthname : list (option string) :=
  [None; Some "Jan"; Some "Feb"; Some "Mar"; Some "Apr"; Some "May"; Some "Jun";
   Some "Jul"; Some "Aug"; Some "Sep"; Some "Oct"; Some "Nov"; Some "Dec"].

(** ["%02d/%3s/%04d %02d:%02d:%02d" % (day, monthname[month], year, hh, mm, ss)]. *)
Definition log_date_time_string (self : handler) : string :=
  let t := time.localtime (clock self) in
  let month :=
    match nth (Z.to_nat (time.tm_mon t)) monthname None with
    | Some m => m
    | None => "None"
    end in
  Str.zfill 2 (time.tm_mday t) ++ "/" ++ Str.lpad 3 month ++ "/"
  ++ Str.zfill 4 (time.tm_year t) ++ " " ++ Str.zfill 2 (time.tm_hour t) ++ ":"
  ++ Str.zfill 2 (time.tm_min t) ++ ":" ++ Str.zfill 2 (time.tm_sec t).

(** *** [SimpleHTTPRequestHandler] *)

Definition translate_path (self : handler) (path : string) : string :=
  let path := Str.before "?" path in
  let path := Str.before "#" path in
  let trailing_slash := Str.endswith (Str.rstrip path) "/" in
  let path := urllib.unquote path in
  let path := posixpath.normpath path in
  let words := filter (fun w => negb (String.eqb w "")) (Str.split "/" path) in
  let path :=
    fold_left
      (fun path word =>
         if negb (String.eqb (posixpath.dirname word) "")
            || String.eqb word "." || String.eqb word ".."
         then path
         else posixpath.join path word)
      words (directory self) in
  if trailing_slash then path ++ "/" else path.

Definition fs_encoding : string := "utf-8".

(** The page [list_directory] builds from the sorted names: the lines of
    [r] joined by newlines, encoded.  The target of a plain request
    decodes to text, so that [unquote] does not fail and the page can be
    encoded. *)
Definition directory_page (self : handler) (path : string) (names : list string)
  : string :=
  let displaypath := html.escape (urllib.unquote (http_server.path (req self))) in
  let enc := fs_encoding in
  let title := "Directory listing for " ++ displaypath in
  let item name :=
    let fullname := posixpath.join path name in
    let linkname := if os.path.isdir (fs self) fullname then name ++ "/" else name in
    let displayname :=
      if os.path.islink (fs self) fullname then name ++ "@" else linkname in
    "<li><a href=" ++ Str.dq ++ urllib.quote linkname ++ Str.dq ++ ">"
    ++ html.escape displayname ++ "</a></li>" in
  let r :=
    List.app
      (List.app
         ["<!DOCTYPE HTML>";
          "<html lang=" ++ Str.dq ++ "en" ++ Str.dq ++ ">";
          "<head>";
          "<meta charset=" ++ Str.dq ++ enc ++ Str.dq ++ ">";
          "<title>" ++ title ++ "</title>" ++ Str.nl ++ "</head>";
          "<body>" ++ Str.nl ++ "<h1>" ++ title ++ "</h1>";
          "<hr>" ++ Str.nl ++ "<ul>"]
         (map item names))
      ["</ul>" ++ Str.nl ++ "<hr>" ++ Str.nl ++ "</body>" ++ Str.nl ++ "</html>"
       ++ Str.nl] in
  Str.join Str.nl r.

Definition list_directory (self : handler) (path : string) : M (option string) :=
  match os.listdir (fs self) path with
  | None =>
      send_error self 404 (Some "No permission to list directory") ;;
      ret None
  | Some names =>
      let names := Str.sort_by Str.lower names in
      let encoded := directory_page self path names in
      send_response self 200 None ;;
      send_header self "Content-type" (Text ("text/html; charset=" ++ fs_encoding)) ;;
      send_header self "Content-Length"
        (Text (Str.of_int (Z.of_nat (String.length encoded)))) ;;
      end_headers self ;;
      ret (Some encoded)
  end.

(** [send_head] from [ctype = self.guess_type(path)] on: the part that
    serves the file at [path].  The result is the bytes the caller has to
    copy (the open file), or [None] when there is nothing further to do. *)
Definition send_head_file (self : handler) (path : string) : M (option string) :=
  let ctype := MimeType path in
  if Str.endswith path "/" then
    send_error self 404 (Some "File not found") ;;
    ret None
  else
    match os.open (fs self) path with
    | None =>
        send_error self 404 (Some "File not found") ;;
        ret None
    | Some (st_mtime, content) =>
        let not_modified :=
          match if_modified_since (req self) with
          | Some ims => negb (if_none_match (req self)) && (st_mtime <=? ims)
          | None => false
          end in
        if not_modified then
          send_response self 304 None ;;
          end_headers self ;;
          ret None
        else
          send_response self 200 None ;;
          send_header self "Content-type" ctype ;;
          send_header self "Content-Length"
            (Text (Str.of_int (Z.of_nat (String.length content)))) ;;
          send_header self "Last-Modified" (HttpDate st_mtime) ;;
          end_headers self ;;
          ret (Some content)
    end.

(** [send_head]: a redirect for a directory asked for without the final
    slash, the index page or the listing for a directory, the file
    otherwise. *)
Definition send_head (self : handler) : M (option string) :=
  let path := translate_path self (http_server.path (req self)) in
  if os.path.isdir (fs self) path then
    let parts := urllib.urlsplit (http_server.path (req self)) in
    if negb (Str.endswith (urllib.path parts) "/") then
      send_response self 301 None ;;
      let new_url :=
        urllib.urlunsplit
          {| urllib.path := urllib.path parts ++ "/";
             urllib.query := urllib.query parts;
             urllib.fragment := urllib.fragment parts |} in
      send_header self "Location" (Text new_url) ;;
      send_header self "Content-Length" (Text "0") ;;
      end_headers self ;;
      ret None
    else
      match
        find (fun index => os.path.isfile (fs self) (posixpath.join path index))
          ["index.html"; "index.htm"]
      with
      | Some index => send_head_file self (posixpath.join path index)
      | None => list_directory self path
      end
  else send_head_file self path.

(** [copyfile(f, self.wfile)]. *)
Definition copyfile (source : string) : M unit := emit (Body source).

Definition do_GET (self : handler) : M unit :=
  f <- send_head self ;;
  match f with
  | Some source => copyfile source
  | None => ret tt
  end.

Definition do_HEAD (self : handler) : M unit :=
  f <- send_head self ;;
  ret tt.

(** [handle_one_request] once [parse_request] has accepted the request:
    the method [do_<command>] when the class has one. *)
Definition handle_one_request (self : handler) : M unit :=
  if String.eqb (command (req self)) "GET" then do_GET self
  else if String.eqb (command (req self)) "HEAD" then do_HEAD self
  else
    send_error self 501
      (Some ("Unsupported method (" ++ Str.repr (command (req self)) ++ ")")).

(** [handle]: the protocol version is HTTP/1.0, so the connection closes
    after one request. *)
Definition handle (self : handler) : M unit := handle_one_request self.

End BaseHTTPRequestHandler.

End http_server.

(** ** [web_server.py]: the handler class *)

Module MyHandler.
Import Conn.
Local Open Scope conn_scope.

(** [[
    def log_message(self, format, *args):
        sys.stdout.write(f"{self.log_date_time_string()} - {format%args}\n")
        sys.stdout.flush()
    ]] *)
Definition log_message (self : http_server.handler) (format : string)
  (args : list Str.fmt_arg) : M unit :=
  let date := http_server.log_date_time_string self in
  message <- lift (Str.format format args) ;;
  stdout_write (date ++ " - " ++ message ++ Str.nl) ;;
  stdout_flush.

(** The inherited [handle], with the override in place. *)
Definition handle : http_server.handler -> M unit := http_server.handle log_message.

End MyHandler.

(** ** The process: state, exceptions and the outside world *)

Module Proc.

Inductive socket_state : Type :=
| Created
| Listening
| Closed.

(** What the process asks of the operating system, in the order it asks.
    [accept n] takes the [n]-th connection of the listening socket's queue,
    [reply n w] is what the handler wrote to it, [shutdown n] closes it;
    [close] closes the listening socket. *)
Inductive syscall : Type :=
| chdir (path : string)
| socket
| bind (address : string) (port : Z)
| listen
| accept (n : nat)
| reply (n : nat) (w : list Conn.witem)
| shutdown (n : nat)
| close.

Record process : Type := {
  cwd : string;
  stdout : sys.stream;
  stderr : string;
  listener : option socket_state;
  trace : list syscall
}.

(** What the process finds around it and does not change. *)
Record world : Type := {
  fs : os.node;
  ports_in_use : list Z
}.

(** What arrives while the server waits in [select]: a connection with its
    parsed request and the time it is handled at, or Ctrl-C. *)
Inductive event : Type :=
| Connection (at_time : time.clock) (r : http_server.request)
| Interrupt.

Inductive exn : Type :=
| FileNotFoundError (filename : string)
| NotADirectoryError (filename : string)
| AddressInUse
| KeyboardInterrupt.

(** A call returns, raises, or waits for an event that is not there. *)
Inductive result (A : Type) : Type :=
| Return (a : A)
| Raise (e : exn)
| Waiting.
Arguments Return {A} a.
Arguments Raise {A} e.
Arguments Waiting {A}.

Definition P (A : Type) : Type := process -> result A * process.

Definition ret {A} (a : A) : P A := fun p => (Return a, p).

Definition bind_ {A B} (m : P A) (k : A -> P B) : P B :=
  fun p =>
    match m p with
    | (Return a, p') => k a p'
    | (Raise e, p') => (Raise e, p')
    | (Waiting, p') => (Waiting, p')
    end.

Definition raise {A} (e : exn) : P A := fun p => (Raise e, p).

(** [try: m except KeyboardInterrupt: h]. *)
Definition try_except_KeyboardInterrupt (m h : P unit) : P unit :=
  fun p =>
    match m p with
    | (Raise KeyboardInterrupt, p') => h p'
    | r => r
    end.

Definition call (s : syscall) : P unit :=
  fun p =>
    (Return tt,
     {| cwd := cwd p; stdout := stdout p; stderr := stderr p;
        listener := listener p; trace := trace p ++ [s] |}).

Definition set_cwd (d : string) : P unit :=
  fun p =>
    (Return tt,
     {| cwd := d; stdout := stdout p; stderr := stderr p;
        listener := listener p; trace := trace p |}).

Definition set_listener (s : socket_state) : P unit :=
  fun p =>
    (Return tt,
     {| cwd := cwd p; stdout := stdout p; stderr := stderr p;
        listener := Some s; trace := trace p |}).

Definition on_stdout (f : sys.stream -> sys.stream) : P unit :=
  fun p =>
    (Return tt,
     {| cwd := cwd p; stdout := f (stdout p); stderr := stderr p;
        listener := listener p; trace := trace p |}).

Definition on_stderr (s : string) : P unit :=
  fun p =>
    (Return tt,
     {| cwd := cwd p; stdout := stdout p; stderr := stderr p ++ s;
        listener := listener p; trace := trace p |}).

Definition getcwd : P string := fun p => (Return (cwd p), p).

(** [print(s)]. *)
Definition print (s : string) : P unit := on_stdout (sys.write (s ++ Str.nl)).

(** [sys.stdout.flush()]. *)
Definition stdout_flush : P unit := on_stdout sys.flush.

End Proc.

Declare Scope proc_scope.
Delimit Scope proc_scope with proc.
Notation "x <- m ;; k" := (Proc.bind_ m (fun x => k))
  (at level 61, m at next level, right associativity) : proc_scope.
Notation "m ;; k" := (Proc.bind_ m (fun _ => k))
  (at level 61, right associativity) : proc_scope.

(** ** [socketserver] and [http.server.HTTPServer] *)

Module socketserver.
Import Proc.
Local Open Scope proc_scope.

Section Server.

Variable w : world.

(** [os.chdir(path)] for an absolute path without [.] and [..]. *)
Definition os_chdir (path : string) : P unit :=
  call (chdir path) ;;
  match os.resolve (fs w) path with
  | Some (os.Dir _ _) => set_cwd path
  | Some (os.File _ _ _) => raise (NotADirectoryError path)
  | None =>
      match os.errno (fs w) path with
      | os.ENOTDIR => raise (NotADirectoryError path)
      | os.ENOENT => raise (FileNotFoundError path)
      end
  end.

Definition server_close : P unit :=
  call close ;; set_listener Closed.

(** [TCPServer.__init__]: make the socket, bind it and listen; close it
    again when binding fails. *)
Definition HTTPServer (address : string) (port : Z) : P unit :=
  call socket ;;
  set_listener Created ;;
  call (bind address port) ;;
  if existsb (Z.eqb port) (ports_in_use w)
  then server_close ;; raise AddressInUse
  else call listen ;; set_listener Listening.

Variable RequestHandlerClass : http_server.handler -> Conn.M unit.

(** [handle_error]: a report on standard error; the server goes on. *)
Definition handle_error : P unit :=
  on_stderr ("Exception occurred during processing of request" ++ Str.nl).

(** [finish_request]: make the handler, which serves the request. *)
Definition finish_request (n : nat) (at_time : time.clock) (r : http_server.request)
  : P bool :=
  fun p =>
    let self :=
      {| http_server.fs := fs w; http_server.directory := cwd p;
         http_server.clock := at_time; http_server.req := r |} in
    let '(res, c) :=
      RequestHandlerClass self (Conn.fresh (stdout p)) in
    (Return (match res with Some _ => true | None => false end),
     {| cwd := cwd p; stdout := Conn.stdout c; stderr := stderr p;
        listener := listener p; trace := trace p ++ [reply n (Conn.wfile c)] |}).

(** [_handle_request_noblock] with [process_request] of a server without
    a threading or forking mix-in. *)
Definition _handle_request_noblock (n : nat) (at_time : time.clock)
  (r : http_server.request) : P unit :=
  call (accept n) ;;
  ok <- finish_request n at_time r ;;
  (if ok : bool then ret tt else handle_error) ;;
  call (shutdown n).

(** [serve_forever] over the events that arrive, the next connection
    being the [n]-th. *)
Fixpoint serve_forever (events : list event) (n : nat) : P unit :=
  match events with
  | [] => fun p => (Waiting, p)
  | Interrupt :: _ => raise KeyboardInterrupt
  | Connection at_time r :: events' =>
      _handle_request_noblock n at_time r ;;
      serve_forever events' (S n)
  end.

End Server.

End socketserver.

(** ** [web_server.py]: the script *)

Module Script.
Import Proc.
Local Open Scope proc_scope.

Definition root : string := "/home/user/webapp".

(** [[
    os.chdir('/home/user/webapp')
    port = 8000
    server = HTTPServer(('0.0.0.0', port), MyHandler)
    print(f"Server running on port {port}")
    print(f"Serving directory: {os.getcwd()}")
    sys.stdout.flush()
    try:
        server.serve_forever()
    except KeyboardInterrupt:
        print("\nServer stopped.")
        server.server_close()
    ]] *)
Definition main (w : world) (events : list event) : P unit :=
  socketserver.os_chdir w root ;;
  let port := 8000 in
  socketserver.HTTPServer w "0.0.0.0" port ;;
  print ("Server running on port " ++ Str.of_int port) ;;
  d <- getcwd ;;
  print ("Serving directory: " ++ d) ;;
  stdout_flush ;;
  try_except_KeyboardInterrupt
    (socketserver.serve_forever w MyHandler.handle events 0)
    (print (Str.nl ++ "Server stopped.") ;;
     socketserver.server_close).

(** How the interpreter ends. *)
Inductive status : Type :=
| Exited (code : Z)
| Running.

Definition describe (e : exn) : string :=
  match e with
  | FileNotFoundError f =>
      "FileNotFoundError: [Errno 2] No such file or directory: " ++ Str.repr f
  | NotADirectoryError f =>
      "NotADirectoryError: [Errno 20] Not a directory: " ++ Str.repr f
  | AddressInUse => "OSError: [Errno 98] Address already in use"
  | KeyboardInterrupt => "KeyboardInterrupt"
  end.

(** The report of an exception nobody caught; the lines naming the stack
    frames are left out. *)
Definition traceback (e : exn) : string :=
  "Traceback (most recent call last):" ++ Str.nl ++ describe e ++ Str.nl.

(** The script run as [__main__]: status 0 at the end of the script,
    status 1 with a traceback for an exception nobody caught (an
    interrupt ends the process by its signal, status 130 in a shell);
    standard output is flushed on the way out. *)
Definition run (w : world) (events : list event) (p : process) : process * status :=
  match main w events p with
  | (Return _, p') => (snd (stdout_flush p'), Exited 0)
  | (Raise e, p') =>
      (snd ((on_stderr (traceback e) ;; stdout_flush) p'),
       Exited (match e with KeyboardInterrupt => 130 | _ => 1 end))
  | (Waiting, p') => (p', Running)
  end.

(** The process as the interpreter starts it. *)
Definition start (cwd0 : string) : process :=
  {| cwd := cwd0; stdout := sys.empty; stderr := ""; listener := None; trace := [] |}.

End Script.

(** ** Notions the properties are stated with *)

(** The words the loop of [translate_path] keeps. *)
Definition kept (word : string) : bool :=
  negb (negb (String.eqb (posixpath.dirname word) "")
        || String.eqb word "." || String.eqb word "..").

(** Going down from a node by names only. *)
Fixpoint descend (cur : os.node) (ws : list string) : option os.node :=
  match ws with
  | [] => Some cur
  | c :: cs =>
      match cur with
      | os.File _ _ _ => None
      | os.Dir _ entries =>
          match os.lookup c entries with
          | Some child => descend child cs
          | None => None
          end
      end
  end.

(** The tree below the directory [d]: all that lies under the serving
    root when [d] is the root. *)
Definition subtree (top : os.node) (d : string) : option os.node :=
  option_map snd (os.walk [] top (os.components d)).

(** The line [log_message] writes for a message. *)
Definition log_line (self : http_server.handler) (message : string) : string :=
  http_server.log_date_time_string self ++ " - " ++ message ++ Str.nl.

(** The message of [log_request]: the request line in quotes, the status
    and [-] for the size. *)
Definition access_entry (self : http_server.handler) (code : Z) : string :=
  Str.dq ++ http_server.requestline (http_server.req self) ++ Str.dq ++ " "
  ++ Str.of_int code ++ " -".

(** The message of [log_error] in [send_error]. *)
Definition error_entry (code : Z) (message : string) : string :=
  "code " ++ Str.of_int code ++ ", message " ++ message.

(** Standard output after [log_message] has written the lines, one call
    each. *)
Definition logged (lines : list string) (out : sys.stream) : sys.stream :=
  fold_left (fun o line => sys.flush (sys.write line o)) lines out.

(** The start of every response: status line, [Server] and [Date]. *)
Definition response_head (self : http_server.handler) (code : Z) (message : string)
  : list Conn.witem :=
  [Conn.StatusLine code message;
   Conn.Header "Server" Conn.ServerVersion;
   Conn.Header "Date" (Conn.HttpDate (time.epoch (http_server.clock self)))].

(** The writes of [send_error] for a code with a body. *)
Definition error_response (self : http_server.handler) (code : Z)
  (message explain : string) : list Conn.witem :=
  let b :=
    http_server.error_message_format code (html.escape message) (html.escape explain) in
  (response_head self code message ++
   [Conn.Header "Connection" (Conn.Text "close");
    Conn.Header "Content-Type" (Conn.Text http_server.error_content_type);
    Conn.Header "Content-Length" (Conn.Text (Str.of_int (Z.of_nat (String.length b))));
    Conn.EndHeaders] ++
   (if String.eqb (http_server.command (http_server.req self)) "HEAD"
    then [] else [Conn.Body b]))%list.

(** The headers of the responses [send_head] sends. *)
Definition file_response (self : http_server.handler) (path : string) (mtime : Z)
  (content : string) : list Conn.witem :=
  (response_head self 200 "OK" ++
   [Conn.Header "Content-type" (Conn.MimeType path);
    Conn.Header "Content-Length"
      (Conn.Text (Str.of_int (Z.of_nat (String.length content))));
    Conn.Header "Last-Modified" (Conn.HttpDate mtime);
    Conn.EndHeaders])%list.

Definition not_modified_response (self : http_server.handler) : list Conn.witem :=
  (response_head self 304 "Not Modified" ++ [Conn.EndHeaders])%list.

Definition redirect_response (self : http_server.handler) : list Conn.witem :=
  let parts := urllib.urlsplit (http_server.path (http_server.req self)) in
  (response_head self 301 "Moved Permanently" ++
   [Conn.Header "Location"
      (Conn.Text
         (urllib.urlunsplit
            {| urllib.path := urllib.path parts ++ "/";
               urllib.query := urllib.query parts;
               urllib.fragment := urllib.fragment parts |}));
    Conn.Header "Content-Length" (Conn.Text "0");
    Conn.EndHeaders])%list.

Definition listing_response (self : http_server.handler) (page : string)
  : list Conn.witem :=
  (response_head self 200 "OK" ++
   [Conn.Header "Content-type" (Conn.Text "text/html; charset=utf-8");
    Conn.Header "Content-Length" (Conn.Text (Str.of_int (Z.of_nat (String.length page))));
    Conn.EndHeaders])%list.

(** Whether the request is a conditional one that the file at hand
    answers with 304: an [If-Modified-Since] date not before the file's
    modification time, and no [If-None-Match]. *)
Definition not_modified (r : http_server.request) (mtime : Z) : bool :=
  match http_server.if_modified_since r with
  | Some ims => negb (http_server.if_none_match r) && (mtime <=? ims)
  | None => false
  end.

(** What the handler decides to answer, as a value: the outcome of the
    tests of [handle_one_request], [send_head] and [list_directory]. *)
Inductive answer : Type :=
| Redirect
| NotFound (message : string)
| NotModified
| Found (path : string) (mtime : Z) (content : string)
| Listing (page : string)
| Unsupported (message : string).

Definition file_answer (self : http_server.handler) (p : string) : answer :=
  if Str.endswith p "/" then NotFound "File not found"
  else
    match os.open (http_server.fs self) p with
    | None => NotFound "File not found"
    | Some (mtime, content) =>
        if not_modified (http_server.req self) mtime then NotModified
        else Found p mtime content
    end.

Definition head_answer (self : http_server.handler) : answer :=
  let p := http_server.translate_path self (http_server.path (http_server.req self)) in
  if os.path.isdir (http_server.fs self) p then
    if negb (Str.endswith
               (urllib.path (urllib.urlsplit (http_server.path (http_server.req self))))
               "/")
    then Redirect
    else
      match
        find (fun index => os.path.isfile (http_server.fs self) (posixpath.join p index))
          ["index.html"; "index.htm"]
      with
      | Some index => file_answer self (posixpath.join p index)
      | None =>
          match os.listdir (http_server.fs self) p with
          | None => NotFound "No permission to list directory"
          | Some names =>
              Listing (http_server.directory_page self p (Str.sort_by Str.lower names))
          end
      end
  else file_answer self p.

Definition answer_of (self : http_server.handler) : answer :=
  let command := http_server.command (http_server.req self) in
  if String.eqb command "GET" || String.eqb command "HEAD" then head_answer self
  else Unsupported ("Unsupported method (" ++ Str.repr command ++ ")").

Definition answer_code (a : answer) : Z :=
  match a with
  | Redirect => 301
  | NotFound _ => 404
  | NotModified => 304
  | Found _ _ _ => 200
  | Listing _ => 200
  | Unsupported _ => 501
  end.

(** The lines on standard output for an answer. *)
Definition answer_log (self : http_server.handler) (a : answer) : list string :=
  match a with
  | NotFound message | Unsupported message =>
      [log_line self (error_entry (answer_code a) message);
       log_line self (access_entry self (answer_code a))]
  | _ => [log_line self (access_entry self (answer_code a))]
  end.

(** The writes to the connection for an answer. *)
Definition answer_items (self : http_server.handler) (a : answer) : list Conn.witem :=
  let get := String.eqb (http_server.command (http_server.req self)) "GET" in
  match a with
  | Redirect => redirect_response self
  | NotFound message =>
      error_response self 404 message "Nothing matches the given URI"
  | NotModified => not_modified_response self
  | Found p mtime content =>
      (file_response self p mtime content ++ if get then [Conn.Body content] else [])%list
  | Listing page =>
      (listing_response self page ++ if get then [Conn.Body page] else [])%list
  | Unsupported message =>
      error_response self 501 message "Server does not support this operation"
  end.

(** What [send_head] returns for an answer, and what it has written. *)
Definition answer_source (a : answer) : option string :=
  match a with
  | Found _ _ content => Some content
  | Listing page => Some page
  | _ => None
  end.

Definition head_items (self : http_server.handler) (a : answer) : list Conn.witem :=
  match a with
  | Found p mtime content => file_response self p mtime content
  | Listing page => listing_response self page
  | _ => answer_items self a
  end.

(** [q] lies under the directory [d]: the components of [d] followed by
    simple names. *)
Definition under (d q : string) : Prop :=
  exists ws,
    Forall (fun w => os.simple_name w = true) ws /\
    os.components q = (os.components d ++ ws)%list.

(** Whether [a] is the beginning of [b]. *)
Fixpoint starts (a b : list string) : bool :=
  match a, b with
  | [], _ => true
  | x :: a', y :: b' => String.eqb x y && starts a' b'
  | _ :: _, [] => false
  end.

(** A request target that, appended to the serving root and resolved
    textually ([..] going up), names something outside the root. *)
Definition escapes_root (d target : string) : bool :=
  let p := urllib.unquote (Str.before "#" (Str.before "?" target)) in
  negb (starts (os.components d) (os.components (posixpath.normpath (d ++ "/" ++ p)))).

(** A response with the time of the [Date] header taken out. *)
Definition undate (w : Conn.witem) : Conn.witem :=
  match w with
  | Conn.Header keyword (Conn.HttpDate _) =>
      if String.eqb keyword "Date" then Conn.Header keyword (Conn.HttpDate 0) else w
  | _ => w
  end.

Fixpoint count (c : ascii) (s : string) : nat :=
  match s with
  | EmptyString => O
  | String a s' => ((if Ascii.eqb a c then 1 else 0) + count c s')%nat
  end.

(** Whether a directory has a regular file of that name. *)
Definition has_file (name : string) (entries : list (string * os.node)) : bool :=
  match os.lookup name entries with
  | Some (os.File _ _ _) => true
  | _ => false
  end.

(** The exception of [os.chdir] for a serving root that names nothing. *)
Definition chdir_error (w : Proc.world) : Proc.exn :=
  match os.errno (Proc.fs w) Script.root with
  | os.ENOENT => Proc.FileNotFoundError Script.root
  | os.ENOTDIR => Proc.NotADirectoryError Script.root
  end.

(** ** A site to try things on *)

Module Demo.

(** The serving root with [index.html], [about.html] and a directory
    [img] without an index page; [/home/user/secret.txt] and [/etc/passwd]
    lie outside the root. *)
Definition webapp : os.node :=
  os.Dir true
    [("index.html", os.File true 100 "Hello");
     ("about.html", os.File true 100 "About");
     ("img", os.Dir true [("a&b.png", os.File true 5 "PNG"); ("Sub", os.Dir true [])])].

Definition site_with (passwd : string) : os.node :=
  os.Dir true
    [("home",
      os.Dir true
        [("user",
          os.Dir true [("webapp", webapp); ("secret.txt", os.File true 1 "top secret")])]);
     ("etc", os.Dir true [("passwd", os.File true 1 passwd)])].

Definition site : os.node := site_with "root:x:0:0".

(** 25 December 2023, 14:30:00 local time. *)
Definition xmas : time.clock :=
  {| time.epoch := 1703514600;
     time.localtime :=
       {| time.tm_year := 2023; time.tm_mon := 12; time.tm_mday := 25;
          time.tm_hour := 14; time.tm_min := 30; time.tm_sec := 0 |} |}.

Definition request (command target : string) (since : option Z) : http_server.request :=
  {| http_server.requestline := command ++ " " ++ target ++ " HTTP/1.1";
     http_server.command := command;
     http_server.path := target;
     http_server.if_modified_since := since;
     http_server.if_none_match := false |}.

Definition get (target : string) : http_server.request := request "GET" target None.

Definition handler (top : os.node) (r : http_server.request) : http_server.handler :=
  {| http_server.fs := top; http_server.directory := Script.root;
     http_server.clock := xmas; http_server.req := r |}.

Definition world : Proc.world := {| Proc.fs := site; Proc.ports_in_use := [22] |}.

End Demo.

(** ** The server's trace *)

(** What the handler writes to a connection. *)
Definition response (self : http_server.handler) : list Conn.witem :=
  Conn.wfile (snd (MyHandler.handle self (Conn.fresh sys.empty))).

(** A connection as an event: when it is handled and what it asks. *)
Definition connection (c : time.clock * http_server.request) : Proc.event :=
  Proc.Connection (fst c) (snd c).

(** An event the handler is embedded for: an interrupt, or a connection
    with a plain request. *)
Definition plain_event (e : Proc.event) : bool :=
  match e with
  | Proc.Connection _ r => http_server.plain r
  | Proc.Interrupt => true
  end.

(** The calls of a server that takes the connections one after the other,
    the first being the [n]-th: accept, answer, close, then the next. *)
Fixpoint served (w : Proc.world) (d : string) (n : nat)
  (conns : list (time.clock * http_server.request)) : list Proc.syscall :=
  match conns with
  | [] => []
  | (k, r) :: rest =>
      Proc.accept n
      :: Proc.reply n
           (response {| http_server.fs := Proc.fs w; http_server.directory := d;
                        http_server.clock := k; http_server.req := r |})
      :: Proc.shutdown n
      :: served w d (S n) rest
  end.

(** A trace in which every connection is accepted, answered and closed
    before the next one is accepted, in the order of the queue. *)
Inductive in_turn : nat -> list Proc.syscall -> Prop :=
| in_turn_nil (n : nat) : in_turn n []
| in_turn_cons (n : nat) (w : list Conn.witem) (t : list Proc.syscall) :
    in_turn (S n) t ->
    in_turn n (Proc.accept n :: Proc.reply n w :: Proc.shutdown n :: t).

(** The process after the connections have been handled. *)
Fixpoint after_serving (w : Proc.world) (n : nat)
  (conns : list (time.clock * http_server.request)) (p : Proc.process) : Proc.process :=
  match conns with
  | [] => p
  | (k, r) :: rest =>
      after_serving w (S n) rest
        (snd (socketserver._handle_request_noblock w MyHandler.handle n k r p))
  end.

(** The calls of a start-up that succeeds. *)
Definition startup : list Proc.syscall :=
  [Proc.chdir Script.root; Proc.socket; Proc.bind "0.0.0.0" 8000; Proc.listen].

(** The process when [serve_forever] is entered. *)
Definition started (p : Proc.process) : Proc.process :=
  {| Proc.cwd := Script.root;
     Proc.stdout :=
       sys.flush
         (sys.write ("Serving directory: " ++ Script.root ++ Str.nl)
            (sys.write ("Server running on port 8000" ++ Str.nl) (Proc.stdout p)));
     Proc.stderr := Proc.stderr p;
     Proc.listener := Some Proc.Listening;
     Proc.trace := Proc.trace p ++ startup |}.

(** ** Notions for the further properties *)

(** What the script prints before it serves. *)
Definition banner : string :=
  "Server running on port 8000" ++ Str.nl
  ++ "Serving directory: " ++ Script.root ++ Str.nl.

(** What handling a request adds to standard output. *)
Definition log_entry (self : http_server.handler) : string :=
  sys.flushed (Conn.stdout (snd (MyHandler.handle self (Conn.fresh sys.empty)))).

(** The log of the connections handled one after the other. *)
Fixpoint served_log (w : Proc.world) (d : string)
  (conns : list (time.clock * http_server.request)) : string :=
  match conns with
  | [] => ""
  | (k, r) :: rest =>
      log_entry {| http_server.fs := Proc.fs w; http_server.directory := d;
                   http_server.clock := k; http_server.req := r |}
      ++ served_log w d rest
  end.

(** The writes to a connection without the body. *)
Definition is_body (w : Conn.witem) : bool :=
  match w with Conn.Body _ => true | _ => false end.

Definition without_body (w : list Conn.witem) : list Conn.witem :=
  filter (fun x => negb (is_body x)) w.

(** A request with another command, the rest being the same. *)
Definition with_command (command : string) (r : http_server.request)
  : http_server.request :=
  {| http_server.requestline := http_server.requestline r;
     http_server.command := command;
     http_server.path := http_server.path r;
     http_server.if_modified_since := http_server.if_modified_since r;
     http_server.if_none_match := http_server.if_none_match r |}.

(** A request with another target, the rest being the same. *)
Definition with_path (target : string) (r : http_server.request)
  : http_server.request :=
  {| http_server.requestline := http_server.requestline r;
     http_server.command := http_server.command r;
     http_server.path := target;
     http_server.if_modified_since := http_server.if_modified_since r;
     http_server.if_none_match := http_server.if_none_match r |}.

(** The shape of a response: a status line, headers, the end of the
    headers and then at most one body. *)
Fixpoint headers_then_body (w : list Conn.witem) : bool :=
  match w with
  | Conn.Header _ _ :: w' => headers_then_body w'
  | Conn.EndHeaders :: [] => true
  | Conn.EndHeaders :: Conn.Body _ :: [] => true
  | _ => false
  end.

Definition well_formed (w : list Conn.witem) : bool :=
  match w with
  | Conn.StatusLine _ _ :: w' => headers_then_body w'
  | _ => false
  end.

(** * Properties *)

(** ** Strings *)

Section StrFacts.

Lemma append_nil_r (s : string) : s ++ "" = s.
Proof. induction s as [|a s IH]; simpl; [reflexivity | now rewrite IH]. Qed.

Lemma append_assoc (a b c : string) : (a ++ b) ++ c = a ++ (b ++ c).
Proof. induction a as [|x a IH]; simpl; [reflexivity | now rewrite IH]. Qed.

Lemma append_eq_nil (a b : string) : a ++ b = "" -> a = "" /\ b = "".
Proof. destruct a; simpl; [auto | discriminate]. Qed.

Lemma split_not_nil (c : ascii) (s : string) : Str.split c s <> [].
Proof.
  destruct s as [|a s]; simpl; [discriminate |].
  destruct (Ascii.eqb a c); [discriminate |].
  destruct (Str.split c s); discriminate.
Qed.

Lemma split_app_sep (c : ascii) (a b : string) :
  Str.split c (a ++ String c b) = (Str.split c a ++ Str.split c b)%list.
Proof.
  induction a as [|x a IH]; simpl.
  - now rewrite Ascii.eqb_refl.
  - destruct (Ascii.eqb x c); [now rewrite IH |].
    rewrite IH. pose proof (split_not_nil c a) as Hne.
    destruct (Str.split c a); [contradiction | reflexivity].
Qed.

Lemma before_id_split (c : ascii) (w : string) :
  Str.before c w = w -> Str.split c w = [w].
Proof.
  induction w as [|a w IH]; simpl; [reflexivity |].
  destruct (Ascii.eqb a c); [discriminate |].
  intros H. injection H as H. now rewrite (IH H).
Qed.

Lemma before_app_sep (c : ascii) (a b : string) :
  Str.before c (a ++ String c b) <> a ++ String c b.
Proof.
  induction a as [|x a IH]; simpl.
  - rewrite Ascii.eqb_refl. discriminate.
  - destruct (Ascii.eqb x c); [discriminate |].
    intros H. injection H as H. now apply IH.
Qed.

Lemma before_comm (c d : ascii) (s : string) :
  Str.before c (Str.before d s) = Str.before d (Str.before c s).
Proof.
  induction s as [|a s IH]; simpl; [reflexivity |].
  destruct (Ascii.eqb a d) eqn:Hd, (Ascii.eqb a c) eqn:Hc; simpl;
    rewrite ?Hd, ?Hc; try reflexivity.
  now rewrite IH.
Qed.

Lemma endswith_refl (s : string) : Str.endswith s s = true.
Proof. destruct s; cbn [Str.endswith]; now rewrite String.eqb_refl. Qed.

Lemma endswith_app (pre suf : string) : Str.endswith (pre ++ suf) suf = true.
Proof.
  induction pre as [|a pre IH]; [apply endswith_refl |].
  cbn [append Str.endswith]. rewrite IH. apply orb_true_r.
Qed.

Lemma endswith_inv (s suf : string) :
  Str.endswith s suf = true -> exists pre, s = pre ++ suf.
Proof.
  induction s as [|a s IH]; cbn [Str.endswith]; intros H.
  - rewrite orb_false_r in H. apply String.eqb_eq in H. exists "". now subst.
  - apply orb_true_iff in H. destruct H as [H | H].
    + apply String.eqb_eq in H. exists "". now rewrite <- H.
    + destruct (IH H) as [pre ->]. now exists (String a pre).
Qed.

Lemma endswith_sep_tail (x w : string) :
  w <> "" -> Str.endswith (x ++ w) "/" = true -> Str.endswith w "/" = true.
Proof.
  intros Hw. induction x as [|a x IH]; [auto |].
  cbn [append Str.endswith]. intros H.
  apply orb_true_iff in H. destruct H as [H | H]; [| auto].
  apply String.eqb_eq in H. injection H as _ H.
  apply append_eq_nil in H. now destruct H.
Qed.

End StrFacts.

(** ** Paths *)

Section PathFacts.

Lemma has_sep_cons (a : ascii) (w : string) :
  posixpath.has_sep (String a w) = Ascii.eqb a "/" || posixpath.has_sep w.
Proof.
  unfold posixpath.has_sep. cbn [Str.before].
  destruct (Ascii.eqb a "/") eqn:E; [reflexivity |].
  cbn [String.eqb]. now rewrite Ascii.eqb_refl.
Qed.

Lemma has_sep_false_before (w : string) :
  posixpath.has_sep w = false -> Str.before "/" w = w.
Proof.
  unfold posixpath.has_sep. intros H.
  apply negb_false_iff in H. now apply String.eqb_eq in H.
Qed.

Lemma has_sep_app_sep (a b : string) : posixpath.has_sep (a ++ String "/" b) = true.
Proof.
  unfold posixpath.has_sep. apply negb_true_iff. apply String.eqb_neq.
  apply before_app_sep.
Qed.

Lemma rstrip_sep_nil (s : string) :
  posixpath.rstrip_sep s = "" -> posixpath.all_sep s = true.
Proof.
  induction s as [|a s IH]; cbn [posixpath.rstrip_sep posixpath.all_sep]; [reflexivity |].
  destruct (String.eqb (posixpath.rstrip_sep s) "") eqn:E; cbn [andb].
  - destruct (Ascii.eqb a "/"); [| discriminate].
    intros _. apply String.eqb_eq in E. now rewrite (IH E).
  - discriminate.
Qed.

Lemma head_of_nil (w : string) : posixpath.head_of w = "" -> posixpath.has_sep w = false.
Proof.
  induction w as [|a w IH]; [reflexivity |].
  cbn [posixpath.head_of]. rewrite has_sep_cons.
  destruct (posixpath.has_sep w); [discriminate |].
  destruct (Ascii.eqb a "/"); [discriminate | reflexivity].
Qed.

Lemma dirname_nil (w : string) : posixpath.dirname w = "" -> posixpath.has_sep w = false.
Proof.
  unfold posixpath.dirname. intros H. apply head_of_nil.
  destruct (String.eqb (posixpath.head_of w) "") eqn:E; cbn [negb andb] in H; [exact H |].
  destruct (posixpath.all_sep (posixpath.head_of w)) eqn:A; cbn [negb] in H; [exact H |].
  apply rstrip_sep_nil in H. congruence.
Qed.

Lemma simple_name_inv (w : string) :
  os.simple_name w = true ->
  w <> "" /\ w <> "." /\ w <> ".." /\ posixpath.has_sep w = false.
Proof.
  unfold os.simple_name. intros H.
  repeat (apply andb_true_iff in H; destruct H as [H ?]).
  repeat match goal with
         | h : negb _ = true |- _ => apply negb_true_iff in h
         end.
  repeat split; try (apply String.eqb_neq; assumption); assumption.
Qed.

Lemma simple_no_leading_sep (w : string) :
  posixpath.has_sep w = false -> Str.startswith w "/" = false.
Proof.
  destruct w as [|a w]; [reflexivity |].
  rewrite has_sep_cons. intros H. apply orb_false_iff in H. destruct H as [H _].
  unfold Str.startswith. cbn [String.prefix].
  destruct (Ascii.ascii_dec "/" a) as [<- | ?]; [discriminate | reflexivity].
Qed.

Lemma components_app_sep (a b : string) :
  os.components (a ++ String "/" b) = (os.components a ++ os.components b)%list.
Proof. unfold os.components. now rewrite split_app_sep, filter_app. Qed.

Lemma components_simple (w : string) :
  w <> "" -> posixpath.has_sep w = false -> os.components w = [w].
Proof.
  intros Hne Hs. unfold os.components.
  rewrite (before_id_split _ _ (has_sep_false_before _ Hs)). cbn [filter].
  apply String.eqb_neq in Hne. now rewrite Hne.
Qed.

Lemma components_nil : os.components "" = [].
Proof. reflexivity. Qed.

(** A path followed by a separator has the same components. *)
Lemma components_slash (p : string) : os.components (p ++ "/") = os.components p.
Proof. rewrite components_app_sep, components_nil. apply app_nil_r. Qed.

(** Joining a simple name adds it as the last component. *)
Lemma components_join (p w : string) :
  os.simple_name w = true ->
  os.components (posixpath.join p w) = (os.components p ++ [w])%list.
Proof.
  intros Hw. destruct (simple_name_inv _ Hw) as (Hne & _ & _ & Hs).
  unfold posixpath.join. rewrite (simple_no_leading_sep _ Hs).
  destruct (String.eqb p "") eqn:Ep; cbn [orb].
  - apply String.eqb_eq in Ep. subst p. now rewrite components_simple.
  - destruct (Str.endswith p "/") eqn:Es.
    + destruct (endswith_inv _ _ Es) as [q ->].
      rewrite append_assoc. cbn [append].
      rewrite !components_app_sep, components_nil, app_nil_r.
      now rewrite (components_simple w).
    + cbn [append]. rewrite components_app_sep. now rewrite (components_simple w).
Qed.

Lemma join_no_trailing_sep (p w : string) :
  os.simple_name w = true -> Str.endswith (posixpath.join p w) "/" = false.
Proof.
  intros Hw. destruct (simple_name_inv _ Hw) as (Hne & _ & _ & Hs).
  assert (Hend : forall x, Str.endswith (x ++ w) "/" = false).
  { intros x. destruct (Str.endswith (x ++ w) "/") eqn:E; [| reflexivity].
    apply endswith_sep_tail in E; [| assumption].
    destruct (endswith_inv _ _ E) as [q ->].
    now rewrite has_sep_app_sep in Hs. }
  unfold posixpath.join. rewrite (simple_no_leading_sep _ Hs).
  destruct (String.eqb p "" || Str.endswith p "/"); [apply Hend |].
  change (p ++ "/" ++ w) with (p ++ ("/" ++ w)). rewrite <- append_assoc. apply Hend.
Qed.

Lemma join_not_nil (p w : string) :
  os.simple_name w = true -> posixpath.join p w <> "".
Proof.
  intros Hw. destruct (simple_name_inv _ Hw) as (Hne & _ & _ & Hs).
  unfold posixpath.join. rewrite (simple_no_leading_sep _ Hs).
  destruct (String.eqb p "" || Str.endswith p "/"); intros E;
    apply append_eq_nil in E; destruct E as [_ E]; [contradiction |].
  discriminate.
Qed.

Lemma translate_loop (words : list string) (d : string) :
  fold_left
    (fun path word =>
       if negb (String.eqb (posixpath.dirname word) "")
          || String.eqb word "." || String.eqb word ".."
       then path else posixpath.join path word) words d
  = fold_left posixpath.join (filter kept words) d.
Proof.
  revert d. induction words as [|w ws IH]; intros d; [reflexivity |].
  cbn [fold_left filter]. unfold kept at 1.
  destruct (negb (String.eqb (posixpath.dirname w) "")
            || String.eqb w "." || String.eqb w ".."); cbn [negb fold_left]; apply IH.
Qed.

Lemma kept_simple (words : list string) :
  Forall (fun w => os.simple_name w = true)
    (filter kept (filter (fun w => negb (String.eqb w "")) words)).
Proof.
  apply Forall_forall. intros w Hin.
  apply filter_In in Hin. destruct Hin as [Hin K].
  apply filter_In in Hin. destruct Hin as [_ Hne].
  unfold kept in K. apply negb_true_iff in K.
  apply orb_false_iff in K. destruct K as [K K2].
  apply orb_false_iff in K. destruct K as [K0 K1].
  apply negb_false_iff, String.eqb_eq, dirname_nil in K0.
  unfold os.simple_name. now rewrite Hne, K1, K2, K0.
Qed.

Lemma components_fold_join (ws : list string) (d : string) :
  Forall (fun w => os.simple_name w = true) ws ->
  os.components (fold_left posixpath.join ws d) = (os.components d ++ ws)%list.
Proof.
  revert d. induction ws as [|w ws IH]; intros d H; cbn [fold_left].
  - now rewrite app_nil_r.
  - inversion H as [|? ? Hw Hws]; subst.
    rewrite (IH _ Hws), (components_join _ _ Hw), <- app_assoc. reflexivity.
Qed.

(** Where [translate_path] points: the serving directory followed by
    simple names, whatever the request asks for. *)
Lemma translate_path_under (self : http_server.handler) (p : string) :
  exists ws,
    Forall (fun w => os.simple_name w = true) ws /\
    os.components (http_server.translate_path self p)
    = (os.components (http_server.directory self) ++ ws)%list.
Proof.
  unfold http_server.translate_path. rewrite translate_loop.
  set (words := filter kept _).
  exists words. split; [apply kept_simple |].
  destruct (Str.endswith _ "/"); rewrite ?components_slash;
    apply components_fold_join, kept_simple.
Qed.

End PathFacts.

(** ** The file system *)

Section FsFacts.

Lemma walk_app (a b : list string) :
  forall up cur,
    os.walk up cur (a ++ b) =
    match os.walk up cur a with
    | Some (up', n) => os.walk up' n b
    | None => None
    end.
Proof.
  induction a as [|c cs IH]; intros up cur; [reflexivity |].
  cbn [app os.walk]. destruct cur as [r m s | r entries]; [reflexivity |].
  destruct (String.eqb c "."); [apply IH |].
  destruct (String.eqb c "..").
  - destruct up; apply IH.
  - destruct (os.lookup c entries); [apply IH | reflexivity].
Qed.

Lemma walk_simple (ws : list string) :
  Forall (fun w => os.simple_name w = true) ws ->
  forall up cur, option_map snd (os.walk up cur ws) = descend cur ws.
Proof.
  induction 1 as [|w ws Hw _ IH]; intros up cur; [reflexivity |].
  destruct (simple_name_inv _ Hw) as (_ & Hd & Hdd & _).
  apply String.eqb_neq in Hd, Hdd.
  cbn [os.walk descend]. destruct cur as [r m s | r entries]; [reflexivity |].
  rewrite Hd, Hdd. destruct (os.lookup w entries); [apply IH | reflexivity].
Qed.

(** What a path under a directory names is decided by the tree below that
    directory. *)
Lemma resolve_under (top : os.node) (d q : string) (ws : list string) :
  Forall (fun w => os.simple_name w = true) ws ->
  os.components q = (os.components d ++ ws)%list ->
  os.resolve top q =
  match subtree top d with
  | Some n =>
      match descend n ws with
      | Some m =>
          if String.eqb q "" then None
          else if Str.endswith q "/" && negb (os.is_dir m) then None
          else Some m
      | None => None
      end
  | None => None
  end.
Proof.
  intros Hws Hq. unfold os.resolve, subtree. rewrite Hq, walk_app.
  destruct (os.walk [] top (os.components d)) as [[up n] |]; [| reflexivity].
  cbn [option_map snd]. rewrite <- (walk_simple ws Hws up n).
  destruct (os.walk up n ws) as [[up' m] |]; reflexivity.
Qed.

Lemma resolve_agree (top1 top2 : os.node) (d q : string) (ws : list string) :
  subtree top1 d = subtree top2 d ->
  Forall (fun w => os.simple_name w = true) ws ->
  os.components q = (os.components d ++ ws)%list ->
  os.resolve top1 q = os.resolve top2 q.
Proof.
  intros E Hws Hq. rewrite !(resolve_under _ d q ws Hws Hq). now rewrite E.
Qed.

Lemma wf_cons (r : bool) (name : string) (child : os.node) (rest : list (string * os.node)) :
  os.wf (os.Dir r ((name, child) :: rest)) <->
  os.simple_name name = true /\ os.wf child /\ os.wf (os.Dir r rest).
Proof. reflexivity. Qed.

Lemma wf_lookup (r : bool) (entries : list (string * os.node)) (c : string) (child : os.node) :
  os.wf (os.Dir r entries) -> os.lookup c entries = Some child -> os.wf child.
Proof.
  induction entries as [|[name x] rest IH]; [discriminate |].
  rewrite wf_cons. intros (_ & Hx & Hrest). cbn [os.lookup].
  destruct (String.eqb name c); [| now apply IH].
  intros E. now injection E as <-.
Qed.

Lemma wf_names (r : bool) (entries : list (string * os.node)) (name : string) :
  os.wf (os.Dir r entries) -> In name (map fst entries) -> os.simple_name name = true.
Proof.
  induction entries as [|[n x] rest IH]; [contradiction |].
  rewrite wf_cons. intros (Hn & _ & Hrest). cbn [map fst In].
  intros [<- | Hin]; [assumption | now apply IH].
Qed.

Lemma walk_wf (comps : list string) :
  forall up cur up' n,
    os.wf cur -> Forall os.wf up ->
    os.walk up cur comps = Some (up', n) ->
    os.wf n /\ Forall os.wf up'.
Proof.
  induction comps as [|c cs IH]; intros up cur up' n Hcur Hup; cbn [os.walk].
  - intros E. injection E as <- <-. now split.
  - destruct cur as [r m s | r entries]; [discriminate |].
    destruct (String.eqb c "."); [now apply IH |].
    destruct (String.eqb c "..").
    + destruct up as [|parent up0]; [now apply IH |].
      inversion Hup; subst. now apply IH.
    + destruct (os.lookup c entries) as [child |] eqn:L; [| discriminate].
      apply IH; [exact (wf_lookup _ _ _ _ Hcur L) | now constructor].
Qed.

Lemma resolve_wf (top : os.node) (p : string) (n : os.node) :
  os.wf top -> os.resolve top p = Some n -> os.wf n.
Proof.
  intros Htop. unfold os.resolve.
  destruct (os.walk [] top (os.components p)) as [[up m] |] eqn:W; [| discriminate].
  destruct (walk_wf _ _ _ _ _ Htop (Forall_nil _) W) as [Hm _].
  destruct (String.eqb p ""); [discriminate |].
  destruct (Str.endswith p "/" && negb (os.is_dir m)); [discriminate |].
  intros E. now injection E as <-.
Qed.

Lemma listdir_simple (top : os.node) (p : string) (names : list string) :
  os.wf top -> os.listdir top p = Some names ->
  Forall (fun w => os.simple_name w = true) names.
Proof.
  intros Htop. unfold os.listdir.
  destruct (os.resolve top p) as [[r m s | [|] entries] |] eqn:R; try discriminate.
  intros E. injection E as <-. apply Forall_forall. intros name Hin.
  exact (wf_names _ _ _ (resolve_wf _ _ _ Htop R) Hin).
Qed.

End FsFacts.

(** ** The handler *)

Section HandlerFacts.

Import Conn.

(** One call of the override: a line on standard output, flushed. *)
Lemma log_message_run (self : http_server.handler) (format : string)
  (args : list Str.fmt_arg) (c : conn) :
  MyHandler.log_message self format args c =
  match Str.format format args with
  | Some message =>
      (Some tt,
       {| stdout := logged [log_line self message] (stdout c); wfile := wfile c |})
  | None => (None, c)
  end.
Proof.
  unfold MyHandler.log_message, bind, lift.
  destruct (Str.format format args); reflexivity.
Qed.

Lemma format_access_entry (self : http_server.handler) (code : Z) :
  Str.format (Str.dq ++ "%s" ++ Str.dq ++ " %s %s")
    [Str.ArgStr (http_server.requestline (http_server.req self));
     Str.ArgStr (Str.of_int code); Str.ArgStr "-"]
  = Some (access_entry self code).
Proof. reflexivity. Qed.

Lemma format_error_entry (code : Z) (message : string) :
  Str.format "code %d, message %s" [Str.ArgInt code; Str.ArgStr message]
  = Some (error_entry code message).
Proof.
  unfold error_entry. cbn [Str.format Ascii.eqb Bool.eqb option_map Str.arg_str].
  now rewrite append_nil_r.
Qed.

Lemma send_response_run (self : http_server.handler) (code : Z) (m : option string)
  (c : conn) :
  http_server.send_response MyHandler.log_message self code m c =
  (Some tt,
   {| stdout := logged [log_line self (access_entry self code)] (stdout c);
      wfile :=
        wfile c ++
        response_head self code
          match m with
          | Some m => m
          | None =>
              match http_server.responses code with
              | Some (phrase, _) => phrase
              | None => ""
              end
          end |}).
Proof.
  unfold http_server.send_response, http_server.log_request,
    http_server.send_response_only, http_server.send_header, bind, emit.
  rewrite log_message_run, format_access_entry.
  cbn [stdout wfile]. unfold response_head. now rewrite <- !app_assoc.
Qed.

Lemma error_message_not_nil (code : Z) (message explain : string) :
  String.eqb (http_server.error_message_format code message explain) "" = false.
Proof. reflexivity. Qed.

Lemma send_error_run (self : http_server.handler) (code : Z) (message : string)
  (c : conn) :
  (200 <=? code) && negb ((code =? 204) || (code =? 205) || (code =? 304)) = true ->
  http_server.send_error MyHandler.log_message self code (Some message) c =
  (Some tt,
   {| stdout :=
        logged [log_line self (error_entry code message);
                log_line self (access_entry self code)] (stdout c);
      wfile :=
        wfile c ++
        error_response self code message
          match http_server.responses code with
          | Some (_, longmsg) => longmsg
          | None => "???"
          end |}).
Proof.
  intros Hbody. unfold http_server.send_error.
  destruct (http_server.responses code) as [[shortmsg longmsg] |];
    unfold http_server.log_error, bind;
    rewrite log_message_run, format_error_entry, send_response_run, Hbody;
    unfold http_server.send_header, http_server.end_headers, emit, ret, bind;
    cbn [stdout wfile]; rewrite error_message_not_nil;
    unfold error_response, logged; cbn [fold_left];
    destruct (String.eqb (http_server.command (http_server.req self)) "HEAD");
    cbn [negb andb wfile stdout]; now rewrite <- !app_assoc.
Qed.

Lemma send_head_file_404 (self : http_server.handler) (p : string) (c : conn) :
  Str.endswith p "/" = true \/ os.open (http_server.fs self) p = None ->
  http_server.send_head_file MyHandler.log_message self p c =
  (Some None,
   {| stdout :=
        logged [log_line self (error_entry 404 "File not found");
                log_line self (access_entry self 404)] (stdout c);
      wfile :=
        wfile c ++
        error_response self 404 "File not found" "Nothing matches the given URI" |}).
Proof.
  intros H. unfold http_server.send_head_file.
  destruct (Str.endswith p "/") eqn:E.
  - unfold bind. now rewrite send_error_run.
  - destruct H as [H | H]; [discriminate |]. rewrite H.
    unfold bind. now rewrite send_error_run.
Qed.

Lemma send_head_file_304 (self : http_server.handler) (p : string) (mtime : Z)
  (content : string) (c : conn) :
  Str.endswith p "/" = false ->
  os.open (http_server.fs self) p = Some (mtime, content) ->
  not_modified (http_server.req self) mtime = true ->
  http_server.send_head_file MyHandler.log_message self p c =
  (Some None,
   {| stdout := logged [log_line self (access_entry self 304)] (stdout c);
      wfile := wfile c ++ not_modified_response self |}).
Proof.
  intros E O N. unfold http_server.send_head_file. rewrite E, O.
  fold (not_modified (http_server.req self) mtime). rewrite N.
  unfold bind. rewrite send_response_run.
  unfold http_server.end_headers, emit, ret, not_modified_response.
  cbn [stdout wfile http_server.responses Z.eqb Pos.eqb].
  now rewrite <- !app_assoc.
Qed.

Lemma send_head_file_200 (self : http_server.handler) (p : string) (mtime : Z)
  (content : string) (c : conn) :
  Str.endswith p "/" = false ->
  os.open (http_server.fs self) p = Some (mtime, content) ->
  not_modified (http_server.req self) mtime = false ->
  http_server.send_head_file MyHandler.log_message self p c =
  (Some (Some content),
   {| stdout := logged [log_line self (access_entry self 200)] (stdout c);
      wfile := wfile c ++ file_response self p mtime content |}).
Proof.
  intros E O N. unfold http_server.send_head_file. rewrite E, O.
  fold (not_modified (http_server.req self) mtime). rewrite N.
  unfold bind. rewrite send_response_run.
  unfold http_server.send_header, http_server.end_headers, emit, ret, file_response.
  cbn [stdout wfile http_server.responses Z.eqb Pos.eqb].
  now rewrite <- !app_assoc.
Qed.

Lemma list_directory_404 (self : http_server.handler) (p : string) (c : conn) :
  os.listdir (http_server.fs self) p = None ->
  http_server.list_directory MyHandler.log_message self p c =
  (Some None,
   {| stdout :=
        logged [log_line self (error_entry 404 "No permission to list directory");
                log_line self (access_entry self 404)] (stdout c);
      wfile :=
        wfile c ++
        error_response self 404 "No permission to list directory"
          "Nothing matches the given URI" |}).
Proof.
  intros H. unfold http_server.list_directory. rewrite H.
  unfold bind. now rewrite send_error_run.
Qed.

Lemma list_directory_200 (self : http_server.handler) (p : string)
  (names : list string) (c : conn) :
  os.listdir (http_server.fs self) p = Some names ->
  let page := http_server.directory_page self p (Str.sort_by Str.lower names) in
  http_server.list_directory MyHandler.log_message self p c =
  (Some (Some page),
   {| stdout := logged [log_line self (access_entry self 200)] (stdout c);
      wfile := wfile c ++ listing_response self page |}).
Proof.
  intros H page. unfold http_server.list_directory. rewrite H.
  unfold bind. rewrite send_response_run.
  unfold http_server.send_header, http_server.end_headers, emit, ret, listing_response.
  cbn [stdout wfile http_server.responses Z.eqb Pos.eqb].
  now rewrite <- !app_assoc.
Qed.

Lemma send_head_redirect (self : http_server.handler) (c : conn) :
  os.path.isdir (http_server.fs self)
    (http_server.translate_path self (http_server.path (http_server.req self))) = true ->
  Str.endswith (urllib.path (urllib.urlsplit (http_server.path (http_server.req self))))
    "/" = false ->
  http_server.send_head MyHandler.log_message self c =
  (Some None,
   {| stdout := logged [log_line self (access_entry self 301)] (stdout c);
      wfile := wfile c ++ redirect_response self |}).
Proof.
  intros D E. unfold http_server.send_head. rewrite D, E. cbn [negb].
  unfold bind. rewrite send_response_run.
  unfold http_server.send_header, http_server.end_headers, emit, ret, redirect_response.
  cbn [stdout wfile http_server.responses Z.eqb Pos.eqb].
  now rewrite <- !app_assoc.
Qed.

Lemma send_head_file_run (self : http_server.handler) (p : string) (c : conn) :
  let a := file_answer self p in
  http_server.send_head_file MyHandler.log_message self p c =
  (Some (answer_source a),
   {| stdout := logged (answer_log self a) (stdout c);
      wfile := wfile c ++ head_items self a |}).
Proof.
  unfold file_answer.
  destruct (Str.endswith p "/") eqn:E; [now apply send_head_file_404; left |].
  destruct (os.open (http_server.fs self) p) as [[mtime content] |] eqn:O;
    [| now apply send_head_file_404; right].
  destruct (not_modified (http_server.req self) mtime) eqn:N.
  - now apply (send_head_file_304 self p mtime content).
  - now apply send_head_file_200.
Qed.

(** [send_head] does what [head_answer] says. *)
Lemma send_head_run (self : http_server.handler) (c : conn) :
  let a := head_answer self in
  http_server.send_head MyHandler.log_message self c =
  (Some (answer_source a),
   {| stdout := logged (answer_log self a) (stdout c);
      wfile := wfile c ++ head_items self a |}).
Proof.
  unfold head_answer.
  destruct (os.path.isdir _ _) eqn:D.
  - destruct (Str.endswith (urllib.path _) "/") eqn:E; cbn [negb].
    + unfold http_server.send_head. rewrite D, E. cbn [negb].
      destruct (find _ _) as [index |].
      * apply send_head_file_run.
      * destruct (os.listdir _ _) as [names |] eqn:L.
        -- now rewrite (list_directory_200 _ _ names).
        -- now rewrite list_directory_404.
    + now apply send_head_redirect.
  - unfold http_server.send_head. rewrite D. apply send_head_file_run.
Qed.

(** The handler does what [answer_of] says: it returns, having logged
    [answer_log] and written [answer_items] to a fresh connection. *)
Lemma handle_run (self : http_server.handler) (out : sys.stream) :
  MyHandler.handle self (fresh out) =
  (Some tt,
   {| stdout := logged (answer_log self (answer_of self)) out;
      wfile := answer_items self (answer_of self) |}).
Proof.
  unfold MyHandler.handle, http_server.handle, http_server.handle_one_request, answer_of.
  destruct (String.eqb (http_server.command (http_server.req self)) "GET") eqn:G.
  - cbn [orb]. unfold http_server.do_GET, bind. rewrite send_head_run.
    destruct (head_answer self); cbn [answer_items answer_source head_items];
      rewrite ?G; unfold http_server.copyfile, emit, ret, fresh;
      cbn [stdout wfile app]; rewrite ?app_nil_r; reflexivity.
  - cbn [orb].
    destruct (String.eqb (http_server.command (http_server.req self)) "HEAD") eqn:H.
    + unfold http_server.do_HEAD, bind. rewrite send_head_run.
      destruct (head_answer self); cbn [answer_items answer_source head_items];
        rewrite ?G; unfold ret, fresh; cbn [stdout wfile app]; rewrite ?app_nil_r;
        reflexivity.
    + now rewrite send_error_run.
Qed.

End HandlerFacts.

(** ** Requests for directories and files *)

Section Serving.

Import Conn.

Lemma resolve_no_trailing_sep (top : os.node) (p : string) (r : bool) (mtime : Z)
  (content : string) :
  os.resolve top p = Some (os.File r mtime content) -> Str.endswith p "/" = false.
Proof.
  unfold os.resolve.
  destruct (os.walk [] top (os.components p)) as [[up n] |]; [| discriminate].
  destruct (String.eqb p ""); [discriminate |].
  destruct (Str.endswith p "/"); [| reflexivity].
  destruct n; cbn [os.is_dir negb andb]; [discriminate |].
  intros E. discriminate.
Qed.

(** A name joined to a directory's path names the directory's entry. *)
Lemma resolve_child (top : os.node) (p w : string) (r : bool)
  (entries : list (string * os.node)) :
  os.resolve top p = Some (os.Dir r entries) ->
  os.simple_name w = true ->
  os.resolve top (posixpath.join p w) = os.lookup w entries.
Proof.
  intros R Hw. destruct (simple_name_inv _ Hw) as (_ & Hd & Hdd & _).
  apply String.eqb_neq in Hd, Hdd.
  unfold os.resolve in *. rewrite (components_join _ _ Hw), walk_app.
  destruct (os.walk [] top (os.components p)) as [[up n] |]; [| discriminate].
  assert (n = os.Dir r entries) as ->.
  { destruct (String.eqb p ""); [discriminate |].
    destruct (Str.endswith p "/" && negb (os.is_dir n)); [discriminate |].
    now injection R. }
  cbn [os.walk]. rewrite Hd, Hdd.
  destruct (os.lookup w entries) as [child |]; [| reflexivity].
  rewrite (join_no_trailing_sep _ _ Hw). cbn [andb].
  pose proof (join_not_nil p w Hw) as Hne. apply String.eqb_neq in Hne.
  now rewrite Hne.
Qed.

Lemma isfile_child (top : os.node) (p w : string) (r : bool)
  (entries : list (string * os.node)) :
  os.resolve top p = Some (os.Dir r entries) ->
  os.simple_name w = true ->
  os.path.isfile top (posixpath.join p w) = has_file w entries.
Proof.
  intros R Hw. unfold os.path.isfile, has_file. now rewrite (resolve_child _ _ _ _ _ R Hw).
Qed.



Lemma status_answer (self : http_server.handler) (a : answer) :
  status (answer_items self a) = Some (answer_code a).
Proof. destruct a; reflexivity. Qed.

Lemma body_found (self : http_server.handler) (p : string) (mtime : Z) (content : string) :
  http_server.command (http_server.req self) = "GET" ->
  body (answer_items self (Found p mtime content)) = content.
Proof. intros G. cbn. rewrite G. cbn. apply append_nil_r. Qed.

Lemma body_listing (self : http_server.handler) (page : string) :
  http_server.command (http_server.req self) = "GET" ->
  body (answer_items self (Listing page)) = page.
Proof. intros G. cbn. rewrite G. cbn. apply append_nil_r. Qed.

Lemma file_answer_readable (self : http_server.handler) (p : string) (mtime : Z)
  (content : string) :
  os.resolve (http_server.fs self) p = Some (os.File true mtime content) ->
  file_answer self p =
  if not_modified (http_server.req self) mtime then NotModified
  else Found p mtime content.
Proof.
  intros R. unfold file_answer, os.open.
  now rewrite (resolve_no_trailing_sep _ _ _ _ _ R), R.
Qed.




End Serving.

(** ** Directory listings *)

Section Listing.

Import Conn.

Lemma contains_mid (a x b : string) : Str.contains (a ++ x ++ b) x.
Proof. now exists a, b. Qed.

Lemma contains_trans (s x y : string) :
  Str.contains s x -> Str.contains x y -> Str.contains s y.
Proof.
  intros (a & b & ->) (c & d & ->). exists (a ++ c), (d ++ b).
  now rewrite !append_assoc.
Qed.

Lemma join_cons (sep y z : string) (l : list string) :
  Str.join sep (y :: z :: l) = y ++ sep ++ Str.join sep (z :: l).
Proof. reflexivity. Qed.

Lemma contains_join (sep x : string) (l : list string) :
  In x l -> Str.contains (Str.join sep l) x.
Proof.
  induction l as [|y l IH]; [contradiction |].
  intros [-> | Hin].
  - destruct l as [|z l].
    + exists "", "". cbn. now rewrite append_nil_r.
    + rewrite join_cons. now exists "", (sep ++ Str.join sep (z :: l)).
  - destruct l as [|z l]; [contradiction |]. rewrite join_cons.
    destruct (IH Hin) as (a & b & E). exists (y ++ sep ++ a), b.
    rewrite E. now rewrite !append_assoc.
Qed.

Lemma insert_by_In (key : string -> string) (x y : string) (l : list string) :
  In y (Str.insert_by key x l) <-> y = x \/ In y l.
Proof.
  induction l as [|z l IH]; cbn [Str.insert_by In].
  - intuition congruence.
  - destruct (String.leb (key x) (key z)); cbn [In]; rewrite ?IH; intuition congruence.
Qed.

(** Sorting keeps every name. *)
Lemma sort_by_In (key : string -> string) (y : string) (l : list string) :
  In y (Str.sort_by key l) <-> In y l.
Proof.
  induction l as [|x l IH]; cbn [Str.sort_by In]; [reflexivity |].
  rewrite insert_by_In, IH. intuition congruence.
Qed.

Lemma replace_app (c : ascii) (r a b : string) :
  Str.replace c r (a ++ b) = Str.replace c r a ++ Str.replace c r b.
Proof.
  induction a as [|x a IH]; cbn [append Str.replace]; [reflexivity |].
  now rewrite IH, append_assoc.
Qed.

Lemma escape_app (a b : string) : html.escape (a ++ b) = html.escape a ++ html.escape b.
Proof. unfold html.escape. now rewrite !replace_app. Qed.

(** The page lists every name it is given, HTML-escaped. *)
Lemma directory_page_lists (self : http_server.handler) (p name : string)
  (names : list string) :
  In name names ->
  Str.contains (http_server.directory_page self p names) (html.escape name).
Proof.
  intros Hin. unfold http_server.directory_page.
  set (item := fun n : string => _).
  apply (contains_trans _ (item name)).
  - apply contains_join. apply in_or_app. left. apply in_or_app. right.
    now apply in_map.
  - subst item. cbv beta. unfold os.path.islink.
    destruct (os.path.isdir _ _).
    + rewrite escape_app.
      exists ("<li><a href=" ++ Str.dq ++ urllib.quote (name ++ "/") ++ Str.dq ++ ">"),
             (html.escape "/" ++ "</a></li>").
      now rewrite !append_assoc.
    + exists ("<li><a href=" ++ Str.dq ++ urllib.quote name ++ Str.dq ++ ">"),
             "</a></li>".
      now rewrite !append_assoc.
Qed.

Lemma answer_of_get (self : http_server.handler) :
  http_server.command (http_server.req self) = "GET" ->
  answer_of self = head_answer self.
Proof. intros G. unfold answer_of. now rewrite G. Qed.

(** The answer for a directory asked for with the final slash. *)
Lemma head_answer_dir (self : http_server.handler) (readable : bool)
  (entries : list (string * os.node)) :
  let p := http_server.translate_path self (http_server.path (http_server.req self)) in
  Str.endswith (urllib.path (urllib.urlsplit (http_server.path (http_server.req self))))
    "/" = true ->
  os.resolve (http_server.fs self) p = Some (os.Dir readable entries) ->
  head_answer self =
  if has_file "index.html" entries then file_answer self (posixpath.join p "index.html")
  else if has_file "index.htm" entries then file_answer self (posixpath.join p "index.htm")
  else if readable
       then Listing (http_server.directory_page self p
                       (Str.sort_by Str.lower (map fst entries)))
       else NotFound "No permission to list directory".
Proof.
  intros p E R. unfold head_answer, os.path.isdir. fold p. rewrite R, E.
  cbn [negb find].
  rewrite !(isfile_child _ _ _ _ _ R) by reflexivity.
  destruct (has_file "index.html" entries); [reflexivity |].
  destruct (has_file "index.htm" entries); [reflexivity |].
  unfold os.listdir. rewrite R. now destruct readable.
Qed.




End Listing.

(** ** The log *)

Section Log.

Import Conn.

(** The date of a log line, on the example of the documentation. *)
Example log_date_time_string_xmas :
  http_server.log_date_time_string (Demo.handler Demo.site (Demo.get "/"))
  = "25/Dec/2023 14:30:00".
Proof. reflexivity. Qed.

Lemma logged_one (line : string) (out : sys.stream) :
  logged [line] out =
  {| sys.buffered := ""; sys.flushed := sys.flushed out ++ sys.buffered out ++ line |}.
Proof. reflexivity. Qed.

Lemma logged_two (l1 l2 : string) (out : sys.stream) :
  logged [l1; l2] out =
  {| sys.buffered := "";
     sys.flushed := sys.flushed out ++ sys.buffered out ++ l1 ++ l2 |}.
Proof.
  unfold logged. cbn [fold_left]. unfold sys.flush, sys.write.
  cbn [sys.buffered sys.flushed]. change ("" ++ l2) with l2.
  now rewrite !append_assoc.
Qed.




End Log.

(** ** Confinement to the serving root *)

Section Confinement.

Import Conn.

Lemma under_translate (self : http_server.handler) (p : string) :
  under (http_server.directory self) (http_server.translate_path self p).
Proof. exact (translate_path_under self p). Qed.

Lemma under_join (d q w : string) :
  under d q -> os.simple_name w = true -> under d (posixpath.join q w).
Proof.
  intros (ws & Hws & Hq) Hw. exists (ws ++ [w])%list. split.
  - apply Forall_app. split; [assumption | now constructor].
  - now rewrite (components_join _ _ Hw), Hq, <- app_assoc.
Qed.

Variables top top' : os.node.
Variable d : string.
Hypothesis same_below : subtree top d = subtree top' d.

Lemma resolve_same (q : string) : under d q -> os.resolve top q = os.resolve top' q.
Proof. intros (ws & Hws & Hq). exact (resolve_agree _ _ _ _ _ same_below Hws Hq). Qed.

Lemma isdir_same (q : string) : under d q -> os.path.isdir top q = os.path.isdir top' q.
Proof. intros U. unfold os.path.isdir. now rewrite (resolve_same _ U). Qed.

Lemma isfile_same (q : string) : under d q -> os.path.isfile top q = os.path.isfile top' q.
Proof. intros U. unfold os.path.isfile. now rewrite (resolve_same _ U). Qed.

Lemma open_same (q : string) : under d q -> os.open top q = os.open top' q.
Proof. intros U. unfold os.open. now rewrite (resolve_same _ U). Qed.

Lemma listdir_same (q : string) : under d q -> os.listdir top q = os.listdir top' q.
Proof. intros U. unfold os.listdir. now rewrite (resolve_same _ U). Qed.

Variable k : time.clock.
Variable r : http_server.request.

Local Abbreviation self := (http_server.Build_handler top d k r).
Local Abbreviation self' := (http_server.Build_handler top' d k r).

Lemma file_answer_same (q : string) : under d q -> file_answer self q = file_answer self' q.
Proof.
  intros U. unfold file_answer. cbn [http_server.fs http_server.req].
  now rewrite (open_same _ U).
Qed.

Lemma directory_page_same (q : string) (names : list string) :
  under d q ->
  Forall (fun w => os.simple_name w = true) names ->
  http_server.directory_page self q names = http_server.directory_page self' q names.
Proof.
  intros U Hnames. unfold http_server.directory_page.
  cbn [http_server.fs http_server.req].
  do 3 f_equal. apply map_ext_in. intros name Hin.
  rewrite Forall_forall in Hnames.
  now rewrite (isdir_same _ (under_join _ _ _ U (Hnames _ Hin))).
Qed.

Lemma sorted_simple (names : list string) :
  Forall (fun w => os.simple_name w = true) names ->
  Forall (fun w => os.simple_name w = true) (Str.sort_by Str.lower names).
Proof.
  rewrite !Forall_forall. intros H x Hin. apply H. now apply sort_by_In in Hin.
Qed.

Lemma head_answer_same : os.wf top -> head_answer self = head_answer self'.
Proof.
  intros Hwf. unfold head_answer.
  change (http_server.translate_path self') with (http_server.translate_path self).
  cbn [http_server.fs http_server.req].
  set (p := http_server.translate_path self (http_server.path r)).
  assert (U : under d p) by apply (under_translate self).
  rewrite <- (isdir_same _ U).
  destruct (os.path.isdir top p); [| apply (file_answer_same _ U)].
  destruct (negb _); [reflexivity |].
  cbn [find].
  rewrite <- (isfile_same _ (under_join _ _ "index.html" U eq_refl)).
  rewrite <- (isfile_same _ (under_join _ _ "index.htm" U eq_refl)).
  destruct (os.path.isfile top (posixpath.join p "index.html"));
    [apply file_answer_same; now apply under_join |].
  destruct (os.path.isfile top (posixpath.join p "index.htm"));
    [apply file_answer_same; now apply under_join |].
  rewrite <- (listdir_same _ U).
  destruct (os.listdir top p) as [names |] eqn:L; [| reflexivity].
  f_equal. apply (directory_page_same _ _ U).
  apply sorted_simple. exact (listdir_simple _ _ _ Hwf L).
Qed.

Lemma answer_of_same : os.wf top -> answer_of self = answer_of self'.
Proof.
  intros Hwf. unfold answer_of. cbn [http_server.req].
  destruct (_ || _); [now apply head_answer_same | reflexivity].
Qed.

Lemma handle_same (out : sys.stream) :
  os.wf top -> MyHandler.handle self (fresh out) = MyHandler.handle self' (fresh out).
Proof.
  intros Hwf. rewrite !handle_run, <- (answer_of_same Hwf).
  destruct (answer_of self); reflexivity.
Qed.

End Confinement.

Section Traversal.

Import Conn.

Lemma nothing_there_404 (self : http_server.handler) :
  http_server.command (http_server.req self) = "GET"
  \/ http_server.command (http_server.req self) = "HEAD" ->
  os.resolve (http_server.fs self)
    (http_server.translate_path self (http_server.path (http_server.req self))) = None ->
  answer_code (answer_of self) = 404.
Proof.
  intros C R. unfold answer_of.
  assert (String.eqb (http_server.command (http_server.req self)) "GET"
          || String.eqb (http_server.command (http_server.req self)) "HEAD" = true) as ->.
  { destruct C as [-> | ->]; reflexivity. }
  unfold head_answer, os.path.isdir, file_answer, os.open. rewrite R.
  now destruct (Str.endswith _ "/").
Qed.


Lemma demo_site_wf : os.wf Demo.site.
Proof. cbn. repeat split. Qed.



End Traversal.

(** ** The server loop *)

Section Loop.

Import Conn Proc.

Lemma response_run (self : http_server.handler) :
  response self = answer_items self (answer_of self).
Proof. unfold response. now rewrite handle_run. Qed.

(** One connection: accepted, answered, closed; nothing else of the
    process changes but standard output. *)
Lemma handle_request_run (w : world) (n : nat) (k : time.clock)
  (r : http_server.request) (p : process) :
  let self :=
    {| http_server.fs := fs w; http_server.directory := cwd p;
       http_server.clock := k; http_server.req := r |} in
  socketserver._handle_request_noblock w MyHandler.handle n k r p =
  (Return tt,
   {| cwd := cwd p;
      stdout := logged (answer_log self (answer_of self)) (Proc.stdout p);
      stderr := stderr p;
      listener := listener p;
      trace := trace p ++ [accept n; reply n (response self); shutdown n] |}).
Proof.
  intros self.
  unfold socketserver._handle_request_noblock, socketserver.finish_request,
    bind_, call, Proc.ret.
  cbn [cwd Proc.stdout stderr listener trace]. fold self.
  rewrite handle_run, response_run.
  cbn [Conn.stdout wfile cwd Proc.stdout stderr listener trace].
  now rewrite <- !app_assoc.
Qed.

Lemma answer_of_clock (top : os.node) (d : string) (k1 k2 : time.clock)
  (r : http_server.request) :
  answer_of {| http_server.fs := top; http_server.directory := d;
               http_server.clock := k1; http_server.req := r |}
  = answer_of {| http_server.fs := top; http_server.directory := d;
                 http_server.clock := k2; http_server.req := r |}.
Proof. reflexivity. Qed.

Lemma answer_items_clock (top : os.node) (d : string) (k1 k2 : time.clock)
  (r : http_server.request) (a : answer) :
  let w1 := answer_items {| http_server.fs := top; http_server.directory := d;
                            http_server.clock := k1; http_server.req := r |} a in
  let w2 := answer_items {| http_server.fs := top; http_server.directory := d;
                            http_server.clock := k2; http_server.req := r |} a in
  status w1 = status w2 /\ body w1 = body w2 /\ map undate w1 = map undate w2.
Proof. destruct a; repeat split. Qed.

Lemma answer_items_epoch (top : os.node) (d : string) (k1 k2 : time.clock)
  (r : http_server.request) (a : answer) :
  time.epoch k1 = time.epoch k2 ->
  answer_items {| http_server.fs := top; http_server.directory := d;
                  http_server.clock := k1; http_server.req := r |} a
  = answer_items {| http_server.fs := top; http_server.directory := d;
                    http_server.clock := k2; http_server.req := r |} a.
Proof.
  intros E.
  destruct a; cbn [answer_items]; unfold redirect_response, error_response,
    not_modified_response, file_response, listing_response, response_head;
    cbn [http_server.clock http_server.req http_server.fs http_server.directory];
    now rewrite E.
Qed.




Lemma after_serving_state (w : world) (conns : list (time.clock * http_server.request)) :
  forall n p,
    cwd (after_serving w n conns p) = cwd p /\
    listener (after_serving w n conns p) = listener p /\
    stderr (after_serving w n conns p) = stderr p /\
    trace (after_serving w n conns p) = (trace p ++ served w (cwd p) n conns)%list.
Proof.
  induction conns as [|[k r] conns IH]; intros n p; cbn [after_serving served].
  - now rewrite app_nil_r.
  - rewrite handle_request_run. cbn [snd].
    destruct (IH (S n)
                {| cwd := cwd p;
                   stdout :=
                     logged
                       (answer_log
                          {| http_server.fs := fs w; http_server.directory := cwd p;
                             http_server.clock := k; http_server.req := r |}
                          (answer_of
                             {| http_server.fs := fs w; http_server.directory := cwd p;
                                http_server.clock := k; http_server.req := r |}))
                       (Proc.stdout p);
                   stderr := stderr p; listener := listener p;
                   trace :=
                     trace p ++
                     [accept n;
                      reply n
                        (response
                           {| http_server.fs := fs w; http_server.directory := cwd p;
                              http_server.clock := k; http_server.req := r |});
                      shutdown n] |}) as (H1 & H2 & H3 & H4).
    cbn [cwd listener stderr trace] in *.
    rewrite H1, H2, H3, H4. repeat split. now rewrite <- app_assoc.
Qed.

(** The loop handles the connections that have arrived and goes on with
    what arrives next. *)
Lemma serve_forever_app (w : world) (conns : list (time.clock * http_server.request))
  (rest : list event) :
  forall n p,
    socketserver.serve_forever w MyHandler.handle (map connection conns ++ rest) n p =
    socketserver.serve_forever w MyHandler.handle rest (n + length conns)
      (after_serving w n conns p).
Proof.
  induction conns as [|[k r] conns IH]; intros n p.
  - cbn [map app length after_serving]. now rewrite Nat.add_0_r.
  - cbn [map app length after_serving connection fst snd socketserver.serve_forever].
    unfold bind_ at 1. rewrite handle_request_run. cbn [snd].
    rewrite IH. now rewrite Nat.add_succ_comm.
Qed.

Lemma served_in_turn (w : world) (d : string)
  (conns : list (time.clock * http_server.request)) :
  forall n, in_turn n (served w d n conns).
Proof.
  induction conns as [|[k r] conns IH]; intros n; cbn [served]; constructor. apply IH.
Qed.

End Loop.

(** ** Start-up and shutdown *)

Section StartStop.

Import Proc.

Lemma port_free (w : world) :
  ~ In 8000 (ports_in_use w) -> existsb (Z.eqb 8000) (ports_in_use w) = false.
Proof.
  intros H. destruct (existsb _ _) eqn:E; [| reflexivity].
  apply existsb_exists in E. destruct E as (x & Hin & Hx).
  apply Z.eqb_eq in Hx. now subst x.
Qed.

Lemma port_taken (w : world) :
  In 8000 (ports_in_use w) -> existsb (Z.eqb 8000) (ports_in_use w) = true.
Proof. intros H. apply existsb_exists. exists 8000. now split. Qed.

Lemma bind_return {A B : Type} (m : P A) (k : A -> P B) (p p' : process) (a : A) :
  m p = (Return a, p') -> bind_ m k p = k a p'.
Proof. intros H. unfold bind_. now rewrite H. Qed.

Lemma bind_raise {A B : Type} (m : P A) (k : A -> P B) (p p' : process) (e : exn) :
  m p = (Raise e, p') -> bind_ m k p = (Raise e, p').
Proof. intros H. unfold bind_. now rewrite H. Qed.

Lemma os_chdir_ok (w : world) (p : process) :
  os.path.isdir (fs w) Script.root = true ->
  socketserver.os_chdir w Script.root p =
  (Return tt,
   {| cwd := Script.root; stdout := stdout p; stderr := stderr p;
      listener := listener p; trace := trace p ++ [chdir Script.root] |}).
Proof.
  unfold os.path.isdir, socketserver.os_chdir. intros D.
  destruct (os.resolve (fs w) Script.root) as [[? ? ? | ? ?] |]; try discriminate.
  reflexivity.
Qed.

Lemma os_chdir_fails (w : world) (p : process) :
  os.path.isdir (fs w) Script.root = false ->
  exists e,
    (e = FileNotFoundError Script.root \/ e = NotADirectoryError Script.root) /\
    (os.resolve (fs w) Script.root = None -> e = chdir_error w) /\
    socketserver.os_chdir w Script.root p =
    (Raise e,
     {| cwd := cwd p; stdout := stdout p; stderr := stderr p;
        listener := listener p; trace := trace p ++ [chdir Script.root] |}).
Proof.
  unfold os.path.isdir, socketserver.os_chdir, chdir_error. intros D.
  destruct (os.resolve (fs w) Script.root) as [[? ? ? | ? ?] |]; try discriminate.
  - exists (NotADirectoryError Script.root). repeat split; [now right | discriminate].
  - destruct (os.errno (fs w) Script.root).
    + exists (FileNotFoundError Script.root). repeat split. now left.
    + exists (NotADirectoryError Script.root). repeat split. now right.
Qed.

Lemma HTTPServer_ok (w : world) (p : process) :
  ~ In 8000 (ports_in_use w) ->
  socketserver.HTTPServer w "0.0.0.0" 8000 p =
  (Return tt,
   {| cwd := cwd p; stdout := stdout p; stderr := stderr p;
      listener := Some Listening;
      trace := trace p ++ [socket; bind "0.0.0.0" 8000; listen] |}).
Proof.
  intros F. unfold socketserver.HTTPServer. rewrite (port_free _ F).
  unfold bind_, call, set_listener. cbn [cwd stdout stderr listener trace].
  now rewrite <- !app_assoc.
Qed.

Lemma HTTPServer_fails (w : world) (p : process) :
  In 8000 (ports_in_use w) ->
  socketserver.HTTPServer w "0.0.0.0" 8000 p =
  (Raise AddressInUse,
   {| cwd := cwd p; stdout := stdout p; stderr := stderr p;
      listener := Some Closed;
      trace := trace p ++ [socket; bind "0.0.0.0" 8000; close] |}).
Proof.
  intros T. unfold socketserver.HTTPServer, socketserver.server_close.
  rewrite (port_taken _ T).
  unfold bind_, call, set_listener, raise. cbn [cwd stdout stderr listener trace].
  now rewrite <- !app_assoc.
Qed.

(** A start-up that succeeds reaches the loop in the state [started]. *)
Lemma main_started (w : world) (events : list event) (p : process) :
  os.path.isdir (fs w) Script.root = true ->
  ~ In 8000 (ports_in_use w) ->
  Script.main w events p =
  try_except_KeyboardInterrupt
    (socketserver.serve_forever w MyHandler.handle events 0)
    (bind_ (print (Str.nl ++ "Server stopped.")) (fun _ => socketserver.server_close))
    (started p).
Proof.
  intros D F. unfold Script.main.
  rewrite (bind_return _ _ _ _ _ (os_chdir_ok w p D)).
  rewrite (bind_return _ _ _ _ _ (HTTPServer_ok w _ F)).
  cbn [cwd stdout stderr listener trace].
  unfold print at 1. unfold bind_ at 1, on_stdout at 1.
  cbn [cwd stdout stderr listener trace].
  unfold bind_ at 1, getcwd. cbn [cwd stdout stderr listener trace].
  unfold print at 1. unfold bind_ at 1, on_stdout at 1.
  cbn [cwd stdout stderr listener trace].
  unfold bind_ at 1, stdout_flush, on_stdout at 1.
  cbn [cwd stdout stderr listener trace].
  unfold started, startup. now rewrite <- !app_assoc, !append_assoc.
Qed.

(** A start-up that fails at [os.chdir] stops there. *)
Lemma main_no_root (w : world) (events : list event) (p : process) :
  os.path.isdir (fs w) Script.root = false ->
  exists e,
    (e = FileNotFoundError Script.root \/ e = NotADirectoryError Script.root) /\
    (os.resolve (fs w) Script.root = None -> e = chdir_error w) /\
    Script.main w events p =
    (Raise e,
     {| cwd := cwd p; stdout := stdout p; stderr := stderr p;
        listener := listener p; trace := trace p ++ [chdir Script.root] |}).
Proof.
  intros D. destruct (os_chdir_fails w p D) as (e & He & Hn & C).
  exists e. repeat split; [exact He | exact Hn |].
  unfold Script.main. now rewrite (bind_raise _ _ _ _ _ C).
Qed.

(** A start-up that fails at [bind] closes the socket and stops. *)
Lemma main_port_taken (w : world) (events : list event) (p : process) :
  os.path.isdir (fs w) Script.root = true ->
  In 8000 (ports_in_use w) ->
  Script.main w events p =
  (Raise AddressInUse,
   {| cwd := Script.root; stdout := stdout p; stderr := stderr p;
      listener := Some Closed;
      trace := trace p ++ [chdir Script.root; socket; bind "0.0.0.0" 8000; close] |}).
Proof.
  intros D T. unfold Script.main.
  rewrite (bind_return _ _ _ _ _ (os_chdir_ok w p D)).
  rewrite (bind_raise _ _ _ _ _ (HTTPServer_fails w _ T)).
  cbn [cwd stdout stderr listener trace]. now rewrite <- !app_assoc.
Qed.

(** An exception other than the interrupt that leaves the script ends
    the process with status 1 and a traceback. *)
Lemma run_raise (w : world) (events : list event) (p p' : process) (e : exn) :
  Script.main w events p = (Raise e, p') ->
  e <> KeyboardInterrupt ->
  Script.run w events p =
  ({| cwd := cwd p'; stdout := sys.flush (stdout p');
      stderr := stderr p' ++ Script.traceback e;
      listener := listener p'; trace := trace p' |},
   Script.Exited 1).
Proof.
  intros M Hne. unfold Script.run. rewrite M.
  destruct e; try reflexivity. contradiction.
Qed.

(** C5: when the serving root does not exist or port 8000 is taken, the
    process ends with status 1 and a traceback naming the error on
    standard error, after one attempt: a single [chdir], at most one
    [bind], and no socket left listening. *)
Theorem startup_failure_exits_nonzero (w : world) (events : list event)
  (cwd0 : string) :
  os.resolve (fs w) Script.root = None \/ In 8000 (ports_in_use w) ->
  let result := Script.run w events (Script.start cwd0) in
  snd result = Script.Exited 1 /\
  (exists e, stderr (fst result) = Script.traceback e /\ e <> KeyboardInterrupt) /\
  (trace (fst result) = [chdir Script.root]
   \/ trace (fst result) = [chdir Script.root; socket; bind "0.0.0.0" 8000; close]) /\
  listener (fst result) <> Some Listening.
Proof.
  intros H result. subst result.
  destruct (os.path.isdir (fs w) Script.root) eqn:D.
  - destruct H as [H | H]; [unfold os.path.isdir in D; now rewrite H in D |].
    rewrite (run_raise _ _ _ _ _ (main_port_taken _ _ _ D H)) by discriminate.
    cbn [fst snd stderr trace listener Script.start app].
    repeat split; [exists AddressInUse; now split | now right | discriminate].
  - destruct (main_no_root w events (Script.start cwd0) D) as (e & He & _ & M).
    assert (Hne : e <> KeyboardInterrupt) by (destruct He as [-> | ->]; discriminate).
    rewrite (run_raise _ _ _ _ _ M Hne).
    cbn [fst snd stderr trace listener Script.start app].
    repeat split; [exists e; now split | now left | discriminate].
Qed.

Lemma startup_failure_exits_nonzero_witness :
  let w := {| fs := Demo.site; ports_in_use := [22; 8000] |} in
  let result := Script.run w [] (Script.start "/") in
  In 8000 (ports_in_use w) /\
  snd result = Script.Exited 1 /\
  stderr (fst result) =
    "Traceback (most recent call last):" ++ Str.nl
    ++ "OSError: [Errno 98] Address already in use" ++ Str.nl /\
  trace (fst result) = [chdir Script.root; socket; bind "0.0.0.0" 8000; close].
Proof.
  pose proof (startup_failure_exits_nonzero
                {| fs := Demo.site; ports_in_use := [22; 8000] |} [] "/"
                (or_intror (or_intror (or_introl eq_refl)))) as (H & _).
  split; [right; left; reflexivity |]. split; [exact H |]. split; reflexivity.
Defined.

(** C9: when the serving root does not exist, [os.chdir] is the only call
    the process makes: it ends with status 1 before any socket is made or
    bound, where it was started, with the traceback of the error of
    [os.chdir] on standard error: [FileNotFoundError], or
    [NotADirectoryError] when a regular file stands on the way to the
    root. *)
Theorem missing_root_never_binds (w : world) (events : list event) (cwd0 : string) :
  os.resolve (fs w) Script.root = None ->
  let result := Script.run w events (Script.start cwd0) in
  snd result = Script.Exited 1 /\
  trace (fst result) = [chdir Script.root] /\
  listener (fst result) = None /\
  cwd (fst result) = cwd0 /\
  stderr (fst result) = Script.traceback (chdir_error w) /\
  (chdir_error w = FileNotFoundError Script.root
   \/ chdir_error w = NotADirectoryError Script.root).
Proof.
  intros R result. subst result.
  assert (D : os.path.isdir (fs w) Script.root = false)
    by (unfold os.path.isdir; now rewrite R).
  destruct (main_no_root w events (Script.start cwd0) D) as (e & _ & He & M).
  rewrite (He R) in M.
  assert (C : chdir_error w = FileNotFoundError Script.root
              \/ chdir_error w = NotADirectoryError Script.root)
    by (unfold chdir_error; destruct (os.errno (fs w) Script.root); [now left | now right]).
  rewrite (run_raise _ _ _ _ _ M) by (destruct C as [-> | ->]; discriminate).
  cbn [fst snd stderr trace listener cwd Script.start app]. repeat split. exact C.
Qed.

Lemma missing_root_never_binds_witness :
  let w := {| fs := os.Dir true [("home", os.File true 0 "")]; ports_in_use := [] |} in
  let result := Script.run w [connection (Demo.xmas, Demo.get "/")] (Script.start "/") in
  os.resolve (fs w) Script.root = None /\
  snd result = Script.Exited 1 /\
  trace (fst result) = [chdir Script.root] /\
  listener (fst result) = None /\
  stderr (fst result) = Script.traceback (NotADirectoryError Script.root).
Proof.
  pose proof (missing_root_never_binds
                {| fs := os.Dir true [("home", os.File true 0 "")]; ports_in_use := [] |}
                [connection (Demo.xmas, Demo.get "/")] "/" eq_refl)
    as (H1 & H2 & H3 & _ & H5 & _).
  split; [reflexivity |]. split; [exact H1 |]. split; [exact H2 |].
  split; [exact H3 | exact H5].
Defined.

Lemma served_length (w : world) (d : string)
  (conns : list (time.clock * http_server.request)) :
  forall n, length (served w d n conns) = (3 * length conns)%nat.
Proof.
  induction conns as [|[k r] conns IH]; intros n; cbn [served length]; [reflexivity |].
  rewrite IH. lia.
Qed.



End StartStop.

(** * Further properties *)

(** ** The script from start to end *)

Section Lifetime.

Import Proc.

(** The events are connections, up to the first interrupt if there is
    one. *)
Lemma events_split (events : list event) :
  exists conns,
    events = map connection conns \/
    exists later, events = (map connection conns ++ Interrupt :: later)%list.
Proof.
  induction events as [|e events IH].
  - exists []. now left.
  - destruct e as [k r |].
    + destruct IH as (conns & [-> | (later & ->)]); exists ((k, r) :: conns).
      * now left.
      * right. now exists later.
    + exists []. right. now exists events.
Qed.

Lemma no_interrupt_in_connections (conns : list (time.clock * http_server.request)) :
  ~ In Interrupt (map connection conns).
Proof.
  intros H. apply in_map_iff in H. destruct H as (c & H & _). discriminate.
Qed.

(** Without an interrupt the server is left waiting in the loop. *)
Lemma run_waiting (w : world) (conns : list (time.clock * http_server.request))
  (cwd0 : string) :
  os.path.isdir (fs w) Script.root = true ->
  ~ In 8000 (ports_in_use w) ->
  Script.run w (map connection conns) (Script.start cwd0) =
  (after_serving w 0 conns (started (Script.start cwd0)), Script.Running).
Proof.
  intros D F. unfold Script.run. rewrite (main_started _ _ _ D F).
  unfold try_except_KeyboardInterrupt.
  rewrite <- (app_nil_r (map connection conns)), serve_forever_app.
  reflexivity.
Qed.

(** With an interrupt the script prints, closes the socket and ends. *)
Lemma run_interrupted (w : world) (conns : list (time.clock * http_server.request))
  (later : list event) (cwd0 : string) :
  os.path.isdir (fs w) Script.root = true ->
  ~ In 8000 (ports_in_use w) ->
  let q := after_serving w 0 conns (started (Script.start cwd0)) in
  Script.run w (map connection conns ++ Interrupt :: later) (Script.start cwd0) =
  ({| cwd := cwd q;
      stdout := sys.flush (sys.write ((Str.nl ++ "Server stopped.") ++ Str.nl) (stdout q));
      stderr := stderr q;
      listener := Some Closed;
      trace := trace q ++ [close] |},
   Script.Exited 0).
Proof.
  intros D F q. unfold Script.run. rewrite (main_started _ _ _ D F).
  unfold try_except_KeyboardInterrupt.
  rewrite serve_forever_app. cbn [socketserver.serve_forever]. unfold raise.
  fold q.
  unfold socketserver.server_close, print, stdout_flush.
  unfold bind_, on_stdout, call, set_listener.
  cbn [fst snd cwd stdout stderr listener trace]. reflexivity.
Qed.



End Lifetime.

(** ** Standard output over the life of the process *)

Section Output.

Import Proc.

Lemma logged_clean (lines : list string) :
  forall out,
    sys.buffered out = "" ->
    logged lines out =
    {| sys.buffered := ""; sys.flushed := sys.flushed out ++ fold_right append "" lines |}.
Proof.
  unfold logged. induction lines as [|l lines IH]; intros out B; cbn [fold_left fold_right].
  - rewrite append_nil_r. destruct out as [b f]. cbn in *. now subst b.
  - rewrite IH by reflexivity. unfold sys.flush, sys.write.
    cbn [sys.buffered sys.flushed]. rewrite B. cbn [append].
    now rewrite append_assoc.
Qed.

(** What a request adds to standard output does not depend on what is
    there already. *)
Lemma log_entry_run (self : http_server.handler) :
  log_entry self = fold_right append "" (answer_log self (answer_of self)).
Proof.
  unfold log_entry. rewrite handle_run. cbn [snd Conn.stdout].
  now rewrite logged_clean.
Qed.

Lemma after_serving_stdout (w : world) (conns : list (time.clock * http_server.request)) :
  forall n p,
    sys.buffered (stdout p) = "" ->
    stdout (after_serving w n conns p) =
    {| sys.buffered := "";
       sys.flushed := sys.flushed (stdout p) ++ served_log w (cwd p) conns |}.
Proof.
  induction conns as [|[k r] conns IH]; intros n p B; cbn [after_serving served_log].
  - rewrite append_nil_r. destruct (stdout p) as [b f]. cbn in *. now subst b.
  - rewrite handle_request_run. cbn [snd].
    rewrite IH; cbn [stdout cwd].
    + rewrite (logged_clean _ _ B). cbn [sys.flushed].
      now rewrite log_entry_run, append_assoc.
    + now rewrite (logged_clean _ _ B).
Qed.

Lemma started_stdout (cwd0 : string) :
  stdout (started (Script.start cwd0)) = {| sys.buffered := ""; sys.flushed := banner |}.
Proof. reflexivity. Qed.

(** After a start-up that succeeds, and as long as the requests are
    plain ones, standard output is, flushed to the last character, the
    two lines of the banner followed by the log lines of the connections
    in the order they were handled; an interrupt adds an empty line and
    ["Server stopped."] and nothing else. *)
Theorem output_is_banner_then_log (w : world)
  (conns : list (time.clock * http_server.request)) (later : list event)
  (cwd0 : string) :
  os.path.isdir (fs w) Script.root = true ->
  ~ In 8000 (ports_in_use w) ->
  forallb plain_event (map connection conns) = true ->
  stdout (fst (Script.run w (map connection conns) (Script.start cwd0))) =
    {| sys.buffered := ""; sys.flushed := banner ++ served_log w Script.root conns |} /\
  stdout (fst (Script.run w (map connection conns ++ Interrupt :: later)
                 (Script.start cwd0))) =
    {| sys.buffered := "";
       sys.flushed :=
         banner ++ served_log w Script.root conns
         ++ Str.nl ++ "Server stopped." ++ Str.nl |}.
Proof.
  intros D F _.
  pose proof (after_serving_stdout w conns 0 (started (Script.start cwd0)) eq_refl) as S.
  rewrite started_stdout in S. cbn [sys.flushed] in S.
  change (cwd (started (Script.start cwd0))) with Script.root in S.
  split.
  - now rewrite (run_waiting _ _ _ D F).
  - rewrite (run_interrupted _ _ _ _ D F). cbn [fst stdout]. rewrite S.
    unfold sys.flush, sys.write. cbn [sys.buffered sys.flushed append].
    now rewrite !append_assoc.
Qed.

Lemma output_is_banner_then_log_witness :
  let conns := [(Demo.xmas, Demo.get "/"); (Demo.xmas, Demo.get "/missing.html")] in
  os.path.isdir (fs Demo.world) Script.root = true /\
  ~ In 8000 (ports_in_use Demo.world) /\
  forallb plain_event (map connection conns) = true /\
  sys.flushed (stdout (fst (Script.run Demo.world (map connection conns)
                              (Script.start "/")))) =
    "Server running on port 8000" ++ Str.nl
    ++ "Serving directory: /home/user/webapp" ++ Str.nl
    ++ "25/Dec/2023 14:30:00 - " ++ Str.dq ++ "GET / HTTP/1.1" ++ Str.dq ++ " 200 -"
    ++ Str.nl
    ++ "25/Dec/2023 14:30:00 - code 404, message File not found" ++ Str.nl
    ++ "25/Dec/2023 14:30:00 - " ++ Str.dq ++ "GET /missing.html HTTP/1.1" ++ Str.dq
    ++ " 404 -" ++ Str.nl.
Proof.
  assert (F : ~ In 8000 (ports_in_use Demo.world)).
  { intros [H | []]. discriminate. }
  pose proof (output_is_banner_then_log Demo.world
                [(Demo.xmas, Demo.get "/"); (Demo.xmas, Demo.get "/missing.html")]
                [] "/" eq_refl F eq_refl) as (H & _).
  split; [reflexivity |]. split; [exact F |]. split; [reflexivity |].
  rewrite H. reflexivity.
Defined.

End Output.

(** ** A serving root that is not a directory *)

Section RootIsFile.

Import Proc.

(** When [/home/user/webapp] is a regular file, [os.chdir] raises
    [NotADirectoryError]: the process ends with status 1 and the
    traceback, where it was started, without having made a socket. *)
Theorem root_not_a_directory (w : world) (events : list event) (cwd0 : string)
  (readable : bool) (mtime : Z) (content : string) :
  os.resolve (fs w) Script.root = Some (os.File readable mtime content) ->
  let result := Script.run w events (Script.start cwd0) in
  snd result = Script.Exited 1 /\
  stderr (fst result) = Script.traceback (NotADirectoryError Script.root) /\
  trace (fst result) = [chdir Script.root] /\
  listener (fst result) = None /\
  cwd (fst result) = cwd0 /\
  stdout (fst result) = sys.empty.
Proof.
  intros R result. subst result.
  assert (M : Script.main w events (Script.start cwd0) =
              (Raise (NotADirectoryError Script.root),
               {| cwd := cwd0; stdout := sys.empty; stderr := "";
                  listener := None; trace := [chdir Script.root] |})).
  { unfold Script.main. apply bind_raise.
    unfold socketserver.os_chdir. rewrite R. reflexivity. }
  rewrite (run_raise _ _ _ _ _ M) by discriminate.
  repeat split.
Qed.

Lemma root_not_a_directory_witness :
  let w :=
    {| fs := os.Dir true
               [("home", os.Dir true
                  [("user", os.Dir true [("webapp", os.File true 0 "not a directory")])])];
       ports_in_use := [] |} in
  let result := Script.run w [Interrupt] (Script.start "/tmp") in
  os.resolve (fs w) Script.root = Some (os.File true 0 "not a directory") /\
  snd result = Script.Exited 1 /\
  trace (fst result) = [chdir Script.root] /\
  cwd (fst result) = "/tmp".
Proof.
  pose proof (root_not_a_directory
                {| fs := os.Dir true
                           [("home", os.Dir true
                              [("user", os.Dir true
                                 [("webapp", os.File true 0 "not a directory")])])];
                   ports_in_use := [] |}
                [Interrupt] "/tmp" true 0 "not a directory" eq_refl)
    as (H1 & _ & H3 & _ & H5 & _).
  split; [reflexivity |]. split; [exact H1 |]. split; [exact H3 | exact H5].
Defined.

End RootIsFile.

(** ** One call of [log_message] *)

Section LogMessage.

Import Conn.

Lemma count_app (c : ascii) (a b : string) :
  count c (a ++ b) = (count c a + count c b)%nat.
Proof.
  induction a as [|x a IH]; cbn [append count]; [reflexivity |].
  rewrite IH. lia.
Qed.

Lemma count_digits (u : Decimal.uint) :
  count (ascii_of_nat 10) (NilEmpty.string_of_uint u) = 0%nat.
Proof. induction u; cbn [NilEmpty.string_of_uint count]; try assumption. reflexivity. Qed.

Lemma count_of_int (z : Z) : count (ascii_of_nat 10) (Str.of_int z) = 0%nat.
Proof.
  unfold Str.of_int. destruct (Z.to_int z) as [u | u];
    cbn [NilEmpty.string_of_int count]; apply count_digits.
Qed.

Lemma count_zeros (n : nat) : count (ascii_of_nat 10) (Str.zeros n) = 0%nat.
Proof. induction n; cbn [Str.zeros count]; [reflexivity | assumption]. Qed.

Lemma count_spaces (n : nat) : count (ascii_of_nat 10) (Str.spaces n) = 0%nat.
Proof. induction n; cbn [Str.spaces count]; [reflexivity | assumption]. Qed.

Lemma count_zfill (w : nat) (z : Z) : count (ascii_of_nat 10) (Str.zfill w z) = 0%nat.
Proof.
  unfold Str.zfill. destruct (z <? 0);
    rewrite ?count_app, count_zeros, count_of_int; reflexivity.
Qed.

Lemma count_month (m : Z) :
  count (ascii_of_nat 10)
    (Str.lpad 3
       match nth (Z.to_nat m) http_server.monthname None with
       | Some name => name
       | None => "None"
       end) = 0%nat.
Proof.
  unfold Str.lpad. rewrite count_app, count_spaces.
  generalize (Z.to_nat m). intros n.
  do 13 (destruct n as [|n]; [reflexivity |]).
  now destruct n.
Qed.

(** The date of a log line has no line break. *)
Lemma count_log_date (self : http_server.handler) :
  count (ascii_of_nat 10) (http_server.log_date_time_string self) = 0%nat.
Proof.
  unfold http_server.log_date_time_string.
  rewrite !count_app, !count_zfill, count_month. reflexivity.
Qed.



End LogMessage.

(** ** Commands *)

Section Commands.

Import Conn.

Lemma head_answer_command (top : os.node) (d : string) (k : time.clock)
  (r : http_server.request) (c1 c2 : string) :
  head_answer {| http_server.fs := top; http_server.directory := d;
                 http_server.clock := k; http_server.req := with_command c1 r |}
  = head_answer {| http_server.fs := top; http_server.directory := d;
                   http_server.clock := k; http_server.req := with_command c2 r |}.
Proof. reflexivity. Qed.

(** A HEAD request is answered like the GET request for the same target
    with the body left out: same status line, same headers, no body. *)
Theorem head_is_get_without_body (top : os.node) (d : string) (k : time.clock)
  (r : http_server.request) (out : sys.stream) :
  let answer command :=
    wfile (snd (MyHandler.handle
                  {| http_server.fs := top; http_server.directory := d;
                     http_server.clock := k;
                     http_server.req := with_command command r |} (fresh out))) in
  answer "HEAD" = without_body (answer "GET") /\
  body (answer "HEAD") = "" /\
  status (answer "HEAD") = status (answer "GET").
Proof.
  intros answer. subst answer. cbv beta. rewrite !handle_run. cbn [snd wfile].
  unfold answer_of. cbn [http_server.req http_server.command with_command].
  change (String.eqb "GET" "GET" || String.eqb "GET" "HEAD") with true.
  change (String.eqb "HEAD" "GET" || String.eqb "HEAD" "HEAD") with true.
  cbv iota. rewrite (head_answer_command top d k r "HEAD" "GET").
  rewrite !status_answer.
  destruct (head_answer _); repeat split.
Qed.

Lemma answer_of_unsupported (self : http_server.handler) :
  http_server.command (http_server.req self) <> "GET" ->
  http_server.command (http_server.req self) <> "HEAD" ->
  answer_of self =
  Unsupported ("Unsupported method ("
               ++ Str.repr (http_server.command (http_server.req self)) ++ ")").
Proof.
  intros G H. unfold answer_of.
  apply String.eqb_neq in G, H. now rewrite G, H.
Qed.



End Commands.

(** ** The length announced and the body sent *)

Section ContentLength.

Import Conn.

Lemma error_response_get (self : http_server.handler) (code : Z)
  (message explain : string) :
  http_server.command (http_server.req self) = "GET" ->
  let b :=
    http_server.error_message_format code (html.escape message) (html.escape explain) in
  header "Content-Length" (error_response self code message explain)
  = Some (Text (Str.of_int (Z.of_nat (String.length b)))) /\
  body (error_response self code message explain) = b.
Proof.
  intros G b. unfold error_response. fold b. rewrite G.
  change (String.eqb "GET" "HEAD") with false. cbv iota.
  unfold response_head. cbn [app header body String.eqb Ascii.eqb Bool.eqb].
  now rewrite append_nil_r.
Qed.



End ContentLength.

(** ** What the server may not read *)

Section Unreadable.

Import Conn.



End Unreadable.

(** ** Query string and fragment *)

Section Query.

Import Conn.

Lemma before_idem (c : ascii) (s : string) : Str.before c (Str.before c s) = Str.before c s.
Proof.
  induction s as [|a s IH]; cbn [Str.before]; [reflexivity |].
  destruct (Ascii.eqb a c) eqn:E; cbn [Str.before]; [reflexivity |].
  now rewrite E, IH.
Qed.

Lemma urlsplit_path (t : string) :
  urllib.path (urllib.urlsplit t) = Str.before "?" (Str.before "#" t).
Proof. reflexivity. Qed.

(** The path component of a target has itself as path component. *)
Lemma urlsplit_path_idem (t : string) :
  urllib.path (urllib.urlsplit (urllib.path (urllib.urlsplit t)))
  = urllib.path (urllib.urlsplit t).
Proof.
  rewrite !urlsplit_path.
  now rewrite (before_comm "#" "?" (Str.before "#" t)), !before_idem.
Qed.

Lemma translate_path_of_path (self : http_server.handler) (t : string) :
  http_server.translate_path self t
  = http_server.translate_path self (urllib.path (urllib.urlsplit t)).
Proof.
  assert (E : Str.before "#" (Str.before "?" t)
              = Str.before "#" (Str.before "?" (urllib.path (urllib.urlsplit t)))).
  { rewrite urlsplit_path, before_idem.
    rewrite (before_comm "#" "?" (Str.before "#" t)), before_idem.
    apply before_comm. }
  unfold http_server.translate_path. now rewrite <- E.
Qed.

(** The query string and the fragment of a target play no part in what
    the target names: for a plain request and the plain request for its
    path component alone, with the same command and headers, the
    file-system path is the same and the status of the answer is the
    same, and when the path does not name a directory the whole response
    is the same. *)
Theorem query_and_fragment_are_ignored (top : os.node) (d : string) (k : time.clock)
  (r r' : http_server.request) (out out' : sys.stream) :
  http_server.plain r = true ->
  http_server.plain r' = true ->
  http_server.command r' = http_server.command r ->
  http_server.path r' = urllib.path (urllib.urlsplit (http_server.path r)) ->
  http_server.if_modified_since r' = http_server.if_modified_since r ->
  http_server.if_none_match r' = http_server.if_none_match r ->
  let self :=
    {| http_server.fs := top; http_server.directory := d;
       http_server.clock := k; http_server.req := r |} in
  let self' :=
    {| http_server.fs := top; http_server.directory := d;
       http_server.clock := k; http_server.req := r' |} in
  http_server.translate_path self (http_server.path r)
  = http_server.translate_path self' (http_server.path r') /\
  status (wfile (snd (MyHandler.handle self (fresh out))))
  = status (wfile (snd (MyHandler.handle self' (fresh out')))) /\
  (os.path.isdir top (http_server.translate_path self (http_server.path r)) = false ->
   wfile (snd (MyHandler.handle self (fresh out)))
   = wfile (snd (MyHandler.handle self' (fresh out')))).
Proof.
  intros _ _ Hc Hp Hm Hn.
  destruct r as [line c t ims inm], r' as [line' c' t' ims' inm'].
  cbn [http_server.command http_server.path http_server.if_modified_since
         http_server.if_none_match] in Hc, Hp, Hm, Hn.
  subst c' t' ims' inm'. intros self self'.
  cbn [http_server.path].
  assert (T : http_server.translate_path self t
              = http_server.translate_path self' (urllib.path (urllib.urlsplit t)))
    by apply (translate_path_of_path self).
  split; [exact T |].
  rewrite !handle_run. cbn [snd wfile]. rewrite !status_answer.
  unfold answer_of. cbn [http_server.req http_server.command self self'].
  destruct (_ || _) eqn:C.
  - unfold head_answer. cbn [http_server.req http_server.fs http_server.path self self'].
    rewrite <- T, urlsplit_path_idem.
    set (p := http_server.translate_path self t).
    destruct (os.path.isdir top p).
    + split; [| discriminate].
      destruct (negb _); [reflexivity |].
      destruct (find _ _) as [index |]; [reflexivity |].
      now destruct (os.listdir top p).
    + split; [reflexivity |]. intros _.
      change (file_answer self' p) with (file_answer self p).
      unfold file_answer. destruct (Str.endswith p "/"); [reflexivity |].
      destruct (os.open (http_server.fs self) p) as [[mtime content] |]; [| reflexivity].
      now destruct (not_modified (http_server.req self) mtime).
  - split; [reflexivity |]. intros _. reflexivity.
Qed.

Lemma query_and_fragment_are_ignored_witness :
  let r := Demo.get "/about.html?lang=en#top" in
  let r' := Demo.get "/about.html" in
  let self := Demo.handler Demo.site r in
  http_server.plain r = true /\
  http_server.plain r' = true /\
  os.path.isdir Demo.site (http_server.translate_path self (http_server.path r)) = false /\
  http_server.translate_path self (http_server.path r) = "/home/user/webapp/about.html" /\
  wfile (snd (MyHandler.handle self (fresh sys.empty)))
  = wfile (snd (MyHandler.handle (Demo.handler Demo.site r') (fresh sys.empty))).
Proof.
  pose proof (query_and_fragment_are_ignored Demo.site Script.root Demo.xmas
                (Demo.get "/about.html?lang=en#top") (Demo.get "/about.html")
                sys.empty sys.empty eq_refl eq_refl eq_refl eq_refl eq_refl eq_refl)
    as (_ & _ & H).
  split; [reflexivity |]. split; [reflexivity |].
  split; [reflexivity |]. split; [reflexivity |]. exact (H eq_refl).
Defined.

End Query.

(** ** The links of a listing *)

Section Links.

Import Conn.

Lemma unquote_quote_char (c : ascii) (s : string) :
  urllib.unquote (urllib.quote (String c s)) = String c (urllib.unquote (urllib.quote s)).
Proof. destruct c as [[] [] [] [] [] [] [] []]; reflexivity. Qed.

(** Percent-decoding undoes percent-encoding. *)
Lemma unquote_quote (s : string) : urllib.unquote (urllib.quote s) = s.
Proof.
  induction s as [|c s IH]; [reflexivity |].
  now rewrite unquote_quote_char, IH.
Qed.

Lemma lookup_In (name : string) (entries : list (string * os.node)) (child : os.node) :
  os.lookup name entries = Some child -> In name (map fst entries).
Proof.
  induction entries as [|[n x] rest IH]; [discriminate |].
  cbn [os.lookup map fst In]. destruct (String.eqb n name) eqn:E.
  - apply String.eqb_eq in E. now left.
  - intros H. right. now apply IH.
Qed.

(** The line of the page for a name. *)
Lemma directory_page_item (self : http_server.handler) (p name : string)
  (names : list string) :
  In name names ->
  let linkname :=
    if os.path.isdir (http_server.fs self) (posixpath.join p name)
    then name ++ "/" else name in
  Str.contains (http_server.directory_page self p names)
    ("<li><a href=" ++ Str.dq ++ urllib.quote linkname ++ Str.dq ++ ">"
     ++ html.escape linkname ++ "</a></li>").
Proof.
  intros Hin linkname. unfold http_server.directory_page.
  set (item := fun n : string => _).
  apply (contains_trans _ (item name)).
  - apply contains_join. apply in_or_app. left. apply in_or_app. right.
    now apply in_map.
  - subst item. cbv beta. unfold os.path.islink. fold linkname.
    exists "", "". cbn [append]. now rewrite append_nil_r.
Qed.

(** In the listing of a directory, sent for a plain request, every entry
    has a link whose [href] is the percent-encoded name, with a final [/]
    when the entry is a directory, and decoding the [href] gives that
    name back. *)
Theorem listing_links_name_the_entries (self : http_server.handler) (out : sys.stream)
  (entries : list (string * os.node)) :
  http_server.plain (http_server.req self) = true ->
  http_server.command (http_server.req self) = "GET" ->
  Str.endswith
    (urllib.path (urllib.urlsplit (http_server.path (http_server.req self)))) "/" = true ->
  os.wf (http_server.fs self) ->
  os.resolve (http_server.fs self)
    (http_server.translate_path self (http_server.path (http_server.req self)))
  = Some (os.Dir true entries) ->
  has_file "index.html" entries = false ->
  has_file "index.htm" entries = false ->
  forall name child,
    os.lookup name entries = Some child ->
    let linkname := if os.is_dir child then name ++ "/" else name in
    Str.contains (body (wfile (snd (MyHandler.handle self (fresh out)))))
      ("<a href=" ++ Str.dq ++ urllib.quote linkname ++ Str.dq ++ ">") /\
    urllib.unquote (urllib.quote linkname) = linkname.
Proof.
  intros _ G E Hwf R H1 H2 name child L linkname.
  split; [| apply unquote_quote].
  rewrite handle_run. cbn [snd wfile].
  rewrite (answer_of_get _ G), (head_answer_dir _ _ _ E R), H1, H2.
  rewrite (body_listing _ _ G).
  set (p := http_server.translate_path self (http_server.path (http_server.req self))) in *.
  assert (Hin : In name (map fst entries)) by exact (lookup_In _ _ _ L).
  assert (Hs : os.simple_name name = true)
    by exact (wf_names _ _ _ (resolve_wf _ _ _ Hwf R) Hin).
  assert (D : os.path.isdir (http_server.fs self) (posixpath.join p name) = os.is_dir child).
  { unfold os.path.isdir. rewrite (resolve_child _ _ _ _ _ R Hs), L. now destruct child. }
  pose proof (directory_page_item self p name (Str.sort_by Str.lower (map fst entries))
                (proj2 (sort_by_In _ _ _) Hin)) as C.
  cbv zeta in C. rewrite D in C. fold linkname in C.
  apply (contains_trans _ _ _ C).
  exists "<li>", (html.escape linkname ++ "</a></li>").
  now rewrite !append_assoc.
Qed.

Lemma listing_links_name_the_entries_witness :
  let self := Demo.handler Demo.site (Demo.get "/img/") in
  let page := body (wfile (snd (MyHandler.handle self (fresh sys.empty)))) in
  http_server.plain (Demo.get "/img/") = true /\
  os.wf Demo.site /\
  Str.contains page ("<a href=" ++ Str.dq ++ "a%26b.png" ++ Str.dq ++ ">") /\
  Str.contains page ("<a href=" ++ Str.dq ++ "Sub/" ++ Str.dq ++ ">").
Proof.
  pose proof (listing_links_name_the_entries
                (Demo.handler Demo.site (Demo.get "/img/")) sys.empty
                [("a&b.png", os.File true 5 "PNG"); ("Sub", os.Dir true [])]
                eq_refl eq_refl eq_refl demo_site_wf eq_refl eq_refl eq_refl) as H.
  split; [reflexivity |]. split; [exact demo_site_wf |]. split.
  - exact (proj1 (H "a&b.png" (os.File true 5 "PNG") eq_refl)).
  - exact (proj1 (H "Sub" (os.Dir true []) eq_refl)).
Defined.

End Links.

(** ** Following the redirect *)

Section Redirect.

Import Conn.

Lemma has_char_before (c : ascii) (s : string) : Str.has_char c (Str.before c s) = false.
Proof.
  induction s as [|a s IH]; cbn [Str.before]; [reflexivity |].
  destruct (Ascii.eqb a c) eqn:E; cbn [Str.has_char]; [reflexivity |].
  now rewrite E, IH.
Qed.

Lemma has_char_before_other (c d : ascii) (s : string) :
  Str.has_char c s = false -> Str.has_char c (Str.before d s) = false.
Proof.
  induction s as [|a s IH]; cbn [Str.before Str.has_char]; [reflexivity |].
  intros H. apply orb_false_iff in H. destruct H as [H1 H2].
  destruct (Ascii.eqb a d); cbn [Str.has_char]; [reflexivity |].
  now rewrite H1, IH.
Qed.

Lemma before_app_nochar (c : ascii) (a b : string) :
  Str.has_char c a = false -> Str.before c (a ++ b) = a ++ Str.before c b.
Proof.
  induction a as [|x a IH]; cbn [append Str.before Str.has_char]; [reflexivity |].
  intros H. apply orb_false_iff in H. destruct H as [H1 H2].
  now rewrite H1, IH.
Qed.

(** The path component of the target of the redirect is the path
    component asked for, followed by a slash. *)
Lemma redirect_path (t : string) :
  let parts := urllib.urlsplit t in
  urllib.path
    (urllib.urlsplit
       (urllib.urlunsplit
          {| urllib.path := urllib.path parts ++ "/";
             urllib.query := urllib.query parts;
             urllib.fragment := urllib.fragment parts |}))
  = urllib.path parts ++ "/".
Proof.
  intros parts. rewrite urlsplit_path. unfold urllib.urlunsplit.
  cbn [urllib.path urllib.query urllib.fragment].
  set (P := urllib.path parts).
  assert (Hq : Str.has_char "?" (P ++ "/") = false).
  { subst P parts. rewrite urlsplit_path.
    assert (H := has_char_before "?" (Str.before "#" t)).
    revert H. generalize (Str.before "?" (Str.before "#" t)). intros s.
    induction s as [|a s IH]; [reflexivity |]. cbn [append Str.has_char].
    intros H. apply orb_false_iff in H. destruct H as [H1 H2]. now rewrite H1, IH. }
  assert (Hf : Str.has_char "#" (P ++ "/") = false).
  { subst P parts. rewrite urlsplit_path.
    assert (H := has_char_before_other "#" "?" _ (has_char_before "#" t)).
    revert H. generalize (Str.before "?" (Str.before "#" t)). intros s.
    induction s as [|a s IH]; [reflexivity |]. cbn [append Str.has_char].
    intros H. apply orb_false_iff in H. destruct H as [H1 H2]. now rewrite H1, IH. }
  destruct (String.eqb (urllib.query parts) ""), (String.eqb (urllib.fragment parts) "").
  - rewrite <- (append_nil_r (P ++ "/")) at 1.
    rewrite (before_app_nochar _ _ _ Hf). cbn [Str.before]. rewrite append_nil_r.
    rewrite <- (append_nil_r (P ++ "/")) at 1.
    rewrite (before_app_nochar _ _ _ Hq). cbn [Str.before]. apply append_nil_r.
  - rewrite (before_app_nochar _ _ _ Hf). cbn [append Str.before Ascii.eqb Bool.eqb].
    rewrite append_nil_r.
    rewrite <- (append_nil_r (P ++ "/")) at 1.
    rewrite (before_app_nochar _ _ _ Hq). cbn [Str.before]. apply append_nil_r.
  - rewrite (before_app_nochar _ _ _ Hf).
    rewrite (before_app_nochar _ _ _ Hq).
    cbn [append Str.before Ascii.eqb Bool.eqb]. apply append_nil_r.
  - rewrite append_assoc.
    rewrite (before_app_nochar _ _ _ Hf).
    rewrite (before_app_nochar _ _ _ Hq).
    cbn [append Str.before Ascii.eqb Bool.eqb]. apply append_nil_r.
Qed.

(** Percent-decoding a string followed by a slash. *)
Lemma unquote_slash_upto (n : nat) :
  forall s, (String.length s <= n)%nat ->
            urllib.unquote (s ++ "/") = urllib.unquote s ++ "/".
Proof.
  induction n as [|n IH]; intros s Hlen.
  - destruct s; [reflexivity | cbn in Hlen; lia].
  - destruct s as [|c rest]; [reflexivity |].
    cbn [String.length] in Hlen.
    assert (Hrest : urllib.unquote (rest ++ "/") = urllib.unquote rest ++ "/")
      by (apply IH; lia).
    cbn [append urllib.unquote].
    destruct (Ascii.eqb c "%"); [| now rewrite Hrest].
    destruct rest as [|h [|l rest']]; cbn [append].
    + reflexivity.
    + destruct (urllib.hexval h); cbn [urllib.hexval]; now rewrite <- Hrest.
    + destruct (urllib.hexval h), (urllib.hexval l);
        cbn [append]; try (change (String h (String l (rest' ++ "/")))
                             with (String h (String l rest') ++ "/");
                           now rewrite Hrest).
      cbn [String.length] in Hlen. rewrite IH by lia. reflexivity.
Qed.

Lemma unquote_slash (s : string) : urllib.unquote (s ++ "/") = urllib.unquote s ++ "/".
Proof. exact (unquote_slash_upto (String.length s) s (le_n _)). Qed.

(** *** [normpath] and a final slash *)

Lemma split_sepfree (s : string) :
  Forall (fun w => posixpath.has_sep w = false) (Str.split "/" s).
Proof.
  induction s as [|c s IH]; cbn [Str.split].
  - now constructor.
  - destruct (Ascii.eqb c "/") eqn:E; [now constructor |].
    destruct (Str.split "/" s) as [|w ws]; [now constructor; [rewrite has_sep_cons, E|] |].
    inversion IH as [|? ? Hw Hws]; subst. constructor; [| assumption].
    now rewrite has_sep_cons, E, Hw.
Qed.

Lemma Forall_removelast {A : Type} (P : A -> Prop) (l : list A) :
  Forall P l -> Forall P (removelast l).
Proof.
  induction 1 as [|x l Hx Hl IH]; [constructor |].
  cbn [removelast]. destruct l; [constructor | now constructor].
Qed.

Lemma norm_step_good (i : nat) (acc : list string) (comp : string) :
  Forall (fun w => w <> "" /\ posixpath.has_sep w = false) acc ->
  posixpath.has_sep comp = false ->
  Forall (fun w => w <> "" /\ posixpath.has_sep w = false) (posixpath.norm_step i acc comp).
Proof.
  intros Hacc Hc. unfold posixpath.norm_step.
  destruct (String.eqb comp "") eqn:E; cbn [orb]; [assumption |].
  destruct (String.eqb comp "."); [assumption |].
  destruct (_ || _).
  - apply Forall_app. split; [assumption |]. constructor; [| constructor].
    split; [now apply String.eqb_neq | assumption].
  - now apply Forall_removelast.
Qed.

Lemma fold_step_good (i : nat) (l : list string) :
  forall acc,
    Forall (fun w => w <> "" /\ posixpath.has_sep w = false) acc ->
    Forall (fun w => posixpath.has_sep w = false) l ->
    Forall (fun w => w <> "" /\ posixpath.has_sep w = false)
      (fold_left (posixpath.norm_step i) l acc).
Proof.
  induction l as [|c l IH]; intros acc Hacc Hl; cbn [fold_left]; [assumption |].
  inversion Hl; subst. apply IH; [now apply norm_step_good | assumption].
Qed.

Lemma fold_step_ext (i j : nat) (l : list string) :
  Nat.eqb i 0 = Nat.eqb j 0 ->
  forall acc,
    fold_left (posixpath.norm_step i) l acc = fold_left (posixpath.norm_step j) l acc.
Proof.
  intros E. induction l as [|c l IH]; intros acc; cbn [fold_left]; [reflexivity |].
  rewrite IH. unfold posixpath.norm_step. now rewrite E.
Qed.

Lemma split_join_good (comps : list string) :
  Forall (fun w => w <> "" /\ posixpath.has_sep w = false) comps ->
  os.components (Str.join "/" comps) = comps.
Proof.
  induction 1 as [|w comps [Hne Hs] Hrest IH]; [reflexivity |].
  destruct comps as [|x comps].
  - cbn [Str.join String.concat]. now apply components_simple.
  - rewrite join_cons. cbn [append]. rewrite components_app_sep, IH.
    now rewrite components_simple.
Qed.

Lemma components_seps (i : nat) (s : string) :
  os.components (posixpath.seps i ++ s) = os.components s.
Proof.
  induction i as [|i IH]; [reflexivity |].
  cbn [posixpath.seps append]. unfold os.components in *.
  cbn [Str.split Ascii.eqb Bool.eqb filter String.eqb negb]. exact IH.
Qed.

(** The words [translate_path] goes through, read off the loop of
    [normpath]. *)
Lemma normpath_words (y : string) :
  exists i,
    Nat.eqb i 0 = negb (Str.startswith y "/") /\
    filter kept (os.components (posixpath.normpath y))
    = filter kept (fold_left (posixpath.norm_step i) (Str.split "/" y) []).
Proof.
  unfold posixpath.normpath.
  destruct (String.eqb y "") eqn:Ey.
  - apply String.eqb_eq in Ey. subst y. exists 0%nat. now split.
  - set (i := if Str.startswith y "/" then _ else 0%nat).
    exists i. split.
    { subst i. destruct (Str.startswith y "/"); [| reflexivity].
      now destruct (_ && _). }
    set (comps := fold_left (posixpath.norm_step i) (Str.split "/" y) []).
    assert (G : Forall (fun w => w <> "" /\ posixpath.has_sep w = false) comps)
      by (apply fold_step_good; [constructor | apply split_sepfree]).
    destruct (String.eqb (posixpath.seps i ++ Str.join "/" comps) "") eqn:Ep.
    + apply String.eqb_eq in Ep. apply append_eq_nil in Ep. destruct Ep as [_ Ep].
      assert (comps = []) as ->.
      { rewrite <- (split_join_good _ G), Ep. reflexivity. }
      reflexivity.
    + now rewrite components_seps, (split_join_good _ G).
Qed.

Lemma startswith_slash (x : string) :
  x <> "" -> Str.startswith (x ++ "/") "/" = Str.startswith x "/".
Proof.
  destruct x as [|a x]; [contradiction |]. intros _.
  unfold Str.startswith. cbn [append String.prefix].
  destruct (Ascii.ascii_dec "/" a); [| reflexivity]. now destruct x.
Qed.

Lemma normpath_slash (x : string) :
  filter kept (os.components (posixpath.normpath (x ++ "/")))
  = filter kept (os.components (posixpath.normpath x)).
Proof.
  destruct (String.eqb x "") eqn:Ex.
  - apply String.eqb_eq in Ex. now subst x.
  - apply String.eqb_neq in Ex.
    destruct (normpath_words (x ++ "/")) as (i & Hi & ->).
    destruct (normpath_words x) as (j & Hj & ->).
    rewrite (startswith_slash _ Ex) in Hi.
    change (x ++ "/") with (x ++ String "/" ""). rewrite split_app_sep.
    rewrite fold_left_app. cbn [Str.split fold_left].
    unfold posixpath.norm_step at 1. cbn [String.eqb orb].
    f_equal. apply fold_step_ext. congruence.
Qed.

Lemma before_nochar (c : ascii) (s : string) :
  Str.has_char c s = false -> Str.before c s = s.
Proof.
  intros H. rewrite <- (append_nil_r s) at 1.
  rewrite (before_app_nochar _ _ _ H). apply append_nil_r.
Qed.

Lemma has_char_slash (c : ascii) (s : string) :
  Ascii.eqb "/" c = false -> Str.has_char c s = false -> Str.has_char c (s ++ "/") = false.
Proof.
  intros Hc. induction s as [|a s IH]; cbn [append Str.has_char].
  - intros _. now rewrite Hc.
  - intros H. apply orb_false_iff in H. destruct H as [H1 H2]. now rewrite H1, IH.
Qed.

Lemma rstrip_slash (s : string) : Str.rstrip (s ++ "/") = s ++ "/".
Proof.
  induction s as [|a s IH]; [reflexivity |].
  cbn [append Str.rstrip]. rewrite IH.
  destruct s; reflexivity.
Qed.

(** [translate_path] of a path component followed by a slash: the same
    place, with a final slash. *)
Lemma translate_path_slash (self : http_server.handler) (t : string) :
  let P := urllib.path (urllib.urlsplit t) in
  exists Q,
    http_server.translate_path self (P ++ "/") = Q ++ "/" /\
    (http_server.translate_path self t = Q \/ http_server.translate_path self t = Q ++ "/").
Proof.
  intros P.
  assert (Hq : Str.has_char "?" P = false)
    by (subst P; rewrite urlsplit_path; apply has_char_before).
  assert (Hf : Str.has_char "#" P = false).
  { subst P. rewrite urlsplit_path.
    apply has_char_before_other, has_char_before. }
  exists (fold_left posixpath.join
            (filter kept (os.components (posixpath.normpath (urllib.unquote P))))
            (http_server.directory self)).
  split.
  - unfold http_server.translate_path.
    rewrite (before_nochar "?" (P ++ "/")) by now apply has_char_slash.
    rewrite (before_nochar "#" (P ++ "/")) by now apply has_char_slash.
    rewrite rstrip_slash, endswith_app, translate_loop, unquote_slash.
    fold (os.components (posixpath.normpath (urllib.unquote P ++ "/"))).
    now rewrite normpath_slash.
  - rewrite (translate_path_of_path self t). fold P.
    unfold http_server.translate_path.
    rewrite (before_nochar "?" P Hq), (before_nochar "#" P Hf), translate_loop.
    fold (os.components (posixpath.normpath (urllib.unquote P))).
    destruct (Str.endswith (Str.rstrip P) "/"); [now right | now left].
Qed.

Lemma resolve_dir_slash (top : os.node) (q : string) (readable : bool)
  (entries : list (string * os.node)) :
  os.resolve top q = Some (os.Dir readable entries) ->
  os.resolve top (q ++ "/") = Some (os.Dir readable entries).
Proof.
  unfold os.resolve. rewrite components_slash.
  destruct (os.walk [] top (os.components q)) as [[up n] |]; [| discriminate].
  destruct (String.eqb q ""); [discriminate |].
  destruct (Str.endswith q "/" && negb (os.is_dir n)); [discriminate |].
  intros E. injection E as ->.
  assert (String.eqb (q ++ "/") "" = false) as ->.
  { apply String.eqb_neq. intros H. apply append_eq_nil in H. now destruct H. }
  now rewrite endswith_app.
Qed.



End Redirect.

(** ** The shape of every response *)

Section Shape.

Import Conn.



End Shape.

(** ** Index pages and files asked for as directories *)

Section Index.

Import Conn.





End Index.
